(** * Ground-truth phantom renderer: a shallow embedding of
      [generateGroundTruth.py] and the properties of its density model,
      projection, label extraction, loading and batch driver.

    Python values are embedded as they reach the program from [json.load]:
    integers as [Z], floats as binary64 ([PrimFloat.float], the format
    CPython's [float] uses), a [str] as the [string] of its UTF-8 bytes,
    objects as [gmap string].
    An expression that can raise evaluates to a [result]; the statements of
    the driver, which print, write files and may call [sys.exit()], run in
    the [proc] monad over the process state. *)

From Stdlib Require Import ZArith QArith Qround Qabs Floats Lqa Lia Ascii String.
From stdpp Require Import base option list strings pretty gmap.

#[local] Set Warnings "-inexact-float".

(** ** Exceptions and the evaluation of expressions *)

Module Py.

Inductive exn :=
  | KeyError (key : string)
  | IndexError
  | TypeError
  | ValueError
  | ZeroDivisionError
  | OverflowError
  | OSError
  | UnicodeDecodeError
  | RecursionError.

Inductive result (A : Type) :=
  | Ok (a : A)
  | Raise (e : exn).
Arguments Ok {A} a.
Arguments Raise {A} e.

#[global] Instance result_ret : MRet result := @Ok.
#[global] Instance result_bind : MBind result := fun A B f r =>
  match r with
  | Ok a => f a
  | Raise e => Raise e
  end.
#[global] Instance result_fmap : FMap result := fun A B f r =>
  match r with
  | Ok a => Ok (f a)
  | Raise e => Raise e
  end.

(** A list comprehension whose element expression can raise: elements are
    evaluated left to right and the first exception aborts the rest. *)
Fixpoint comprehension {A B : Type} (f : A -> result B) (l : list A) : result (list B) :=
  match l with
  | [] => Ok []
  | a :: l' => b ← f a; bs ← comprehension f l'; Ok (b :: bs)
  end.

(** ** Values *)

#[local] Unset Elimination Schemes.
Inductive pyval :=
  | PNone
  | PBool (b : bool)
  | PInt (z : Z)
  | PFloat (f : float)
  | PStr (s : string)
  | PList (l : list pyval)
  | PDict (d : gmap string pyval).
#[local] Set Elimination Schemes.

(** Numbers: [bool] is a subclass of [int]. *)
Inductive num :=
  | NInt (z : Z)
  | NFloat (f : float).

Definition as_num (v : pyval) : option num :=
  match v with
  | PBool b => Some (NInt (if b then 1 else 0)%Z)
  | PInt z => Some (NInt z)
  | PFloat f => Some (NFloat f)
  | _ => None
  end.

Definition of_num (n : num) : pyval :=
  match n with
  | NInt z => PInt z
  | NFloat f => PFloat f
  end.

(** ** binary64 arithmetic as CPython performs it *)

(** [int] to [float]: round to nearest, ties to even; a magnitude that
    rounds past the largest float raises. *)
Definition float_of_int (z : Z) : result float :=
  let f := SF2Prim (binary_normalize prec emax z 0 false) in
  if is_infinity f then Raise OverflowError else Ok f.

Definition to_float (n : num) : result float :=
  match n with
  | NInt z => float_of_int z
  | NFloat f => Ok f
  end.

Definition sf_of_int (z : Z) : spec_float :=
  match z with
  | Z0 => S754_zero false
  | Zpos p => S754_finite false p 0
  | Zneg p => S754_finite true p 0
  end.

(** [int / int]: the correctly rounded quotient of the two integers. *)
Definition int_truediv (a b : Z) : result float :=
  if (b =? 0)%Z then Raise ZeroDivisionError
  else
    let f := SF2Prim (SFdiv prec emax (sf_of_int a) (sf_of_int b)) in
    if is_infinity f then Raise OverflowError else Ok f.

(** [float / float]: unlike IEEE 754, a zero divisor (of either sign)
    raises. *)
Definition float_truediv (a b : float) : result float :=
  if PrimFloat.eqb b 0%float then Raise ZeroDivisionError
  else Ok (a / b)%float.

Definition num_mul (a b : num) : result num :=
  match a, b with
  | NInt x, NInt y => Ok (NInt (x * y))
  | _, _ => x ← to_float a; y ← to_float b; Ok (NFloat (x * y)%float)
  end.

Definition num_add (a b : num) : result num :=
  match a, b with
  | NInt x, NInt y => Ok (NInt (x + y))
  | _, _ => x ← to_float a; y ← to_float b; Ok (NFloat (x + y)%float)
  end.

Definition num_sub (a b : num) : result num :=
  match a, b with
  | NInt x, NInt y => Ok (NInt (x - y))
  | _, _ => x ← to_float a; y ← to_float b; Ok (NFloat (x - y)%float)
  end.

(** True division always yields a float. *)
Definition num_truediv (a b : num) : result float :=
  match a, b with
  | NInt x, NInt y => int_truediv x y
  | _, _ => x ← to_float a; y ← to_float b; float_truediv x y
  end.

(** [int(x)] on a float truncates toward zero; [nan] and the infinities
    raise. *)
Definition float_trunc (f : float) : result Z :=
  match Prim2SF f with
  | S754_nan => Raise ValueError
  | S754_infinity _ => Raise OverflowError
  | S754_zero _ => Ok 0%Z
  | S754_finite s m e =>
      let a := match e with
               | Zneg k => Z.shiftr (Zpos m) (Zpos k)
               | _ => Z.shiftl (Zpos m) e
               end in
      Ok (if s then - a else a)%Z
  end.

Definition py_int (n : num) : result Z :=
  match n with
  | NInt z => Ok z
  | NFloat f => float_trunc f
  end.

(** The exact rational value of a finite float (0 for the others). *)
Definition float_to_Q (f : float) : Q :=
  match Prim2SF f with
  | S754_finite s m e =>
      let a := match e with
               | Zneg k => Zpos m # (2 ^ k)
               | _ => inject_Z (Z.shiftl (Zpos m) e)
               end in
      if s then Qopp a else a
  | _ => 0
  end.

(** ** Operators on arbitrary values *)

Fixpoint repeat_string (s : string) (n : nat) : string :=
  match n with
  | O => ""
  | S n' => s +:+ repeat_string s n'
  end.

(** [a * b]: numbers multiply; a sequence times an [int] repeats. *)
Definition py_mul (a b : pyval) : result pyval :=
  match as_num a, as_num b with
  | Some x, Some y => of_num <$> num_mul x y
  | None, Some (NInt k) =>
      match a with
      | PStr s => Ok (PStr (repeat_string s (Z.to_nat k)))
      | PList l => Ok (PList (concat (replicate (Z.to_nat k) l)))
      | _ => Raise TypeError
      end
  | Some (NInt k), None =>
      match b with
      | PStr s => Ok (PStr (repeat_string s (Z.to_nat k)))
      | PList l => Ok (PList (concat (replicate (Z.to_nat k) l)))
      | _ => Raise TypeError
      end
  | _, _ => Raise TypeError
  end.

Definition py_truediv (a b : pyval) : result float :=
  match as_num a, as_num b with
  | Some x, Some y => num_truediv x y
  | _, _ => Raise TypeError
  end.

(** [d * v] for a float [d]: [v] must be a number. *)
Definition float_mul (d : float) (v : pyval) : result float :=
  match as_num v with
  | Some y => y' ← to_float y; Ok (d * y')%float
  | None => Raise TypeError
  end.

(** [v == s] for a string literal [s]. *)
Definition eq_str (v : pyval) (s : string) : bool :=
  match v with
  | PStr t => bool_decide (t = s)
  | _ => false
  end.

(** [max(l)]: the first item is the candidate and a later item replaces
    it when [item > candidate]. *)
Definition py_max {A : Type} (gt : A -> A -> bool) (l : list A) : result A :=
  match l with
  | [] => Raise ValueError
  | x :: l' => Ok (fold_left (fun m item => if gt item m then item else m) l' x)
  end.

(** [needle in haystack] on strings. *)
Fixpoint str_contains (needle haystack : string) : bool :=
  String.prefix needle haystack ||
  match haystack with
  | EmptyString => false
  | String _ rest => str_contains needle rest
  end.

(** [key in v] *)
Definition py_contains (key : string) (v : pyval) : result bool :=
  match v with
  | PDict d => Ok (bool_decide (is_Some (d !! key)))
  | PList l => Ok (existsb (fun x => eq_str x key) l)
  | PStr s => Ok (str_contains key s)
  | _ => Raise TypeError
  end.

(** [v[key]] for a string key. *)
Definition py_getitem (v : pyval) (key : string) : result pyval :=
  match v with
  | PDict d =>
      match d !! key with
      | Some x => Ok x
      | None => Raise (KeyError key)
      end
  | _ => Raise TypeError
  end.

(** The items a [for] loop visits. A dict yields its keys. *)
Definition py_iter (v : pyval) : result (list pyval) :=
  match v with
  | PList l => Ok l
  | PDict d => Ok (PStr <$> (map_to_list d).*1)
  | PStr s => Ok ((fun c => PStr (String c EmptyString)) <$> list_ascii_of_string s)
  | _ => Raise TypeError
  end.

End Py.

Import Py.

(** ** The arithmetic the density model runs on

    [set_density] is written once, over the operations it uses.  The
    program runs it on binary64 ([float_real]); [exact_real] reads the same
    code over the rationals, which is the arithmetic the algebraic
    statements about it are made in. *)

Class Real (F V : Type) := {
  (** the literal [m / 10^k], written with [k] decimals *)
  decimal : Z -> nat -> F;
  (** [d * zsize], with [zsize] as the attribute holds it *)
  rmul : F -> V -> result F;
  rdiv : F -> F -> result F;
  rgt : F -> F -> bool;
}.

(** A decimal literal denotes the float nearest to it, which is the
    correctly rounded quotient of its digits by the power of ten. *)
Definition float_literal (m : Z) (k : nat) : float :=
  SF2Prim (SFdiv prec emax (sf_of_int m) (sf_of_int (10 ^ Z.of_nat k))).

#[global] Instance float_real : Real float pyval := {
  decimal := float_literal;
  rmul := float_mul;
  rdiv := float_truediv;
  rgt := fun a b => PrimFloat.ltb b a;
}.

Definition Q_truediv (a b : Q) : result Q :=
  if Qeq_bool b 0 then Raise ZeroDivisionError else Ok (a / b)%Q.

#[global] Instance exact_real : Real Q Q := {
  decimal := fun m k => (m # Pos.of_nat (10 ^ k))%Q;
  rmul := fun d z => Ok (d * z)%Q;
  rdiv := Q_truediv;
  rgt := fun a b => negb (Qle_bool a b);
}.

(** ** class Phantom *)

Module Phantom.

Section SetDensity.
Context {F V : Type} `{!Real F V}.

(** [[i for i, mat in enumerate(materials) if material == mat]] *)
Definition matching (material : pyval) (materials : list string) : list nat :=
  (filter (fun im => eq_str material im.2 = true)
          (imap (fun i mat => (i, mat)) materials)).*1.

Definition subscript {A : Type} (l : list A) (i : nat) : result A :=
  match l !! i with
  | Some a => Ok a
  | None => Raise IndexError
  end.

(** Returns the values assigned to [self.density] and [self.opacity]. *)
Definition set_density (material : pyval) (zsize : V) : result (F * F) :=
  let materials := ["lung"; "brain"; "fat"; "bone"] in
  let density := [decimal 296 3; decimal 104 2; decimal 92 2; decimal 190 2] in
  opacity ← comprehension (fun d => rmul d zsize) density;
  index ← subscript (matching material materials) 0;
  d ← subscript density index;
  dmax ← py_max rgt density;
  self_density ← rdiv d dmax;
  o ← subscript opacity index;
  omax ← py_max rgt opacity;
  self_opacity ← rdiv o omax;
  Ok (self_density, self_opacity).
End SetDensity.

Record t := Phantom {
  name : pyval;
  material : pyval;
  xPos : pyval;
  yPos : pyval;
  zPos : pyval;
  xDir : pyval;
  yDir : pyval;
  zDir : pyval;
  radius : pyval;
  zsize : pyval;
  density : float;
  opacity : float;
}.

(** [Phantom(name, material, ...)]: [__init__] stores the arguments and
    calls [set_density]. *)
Definition init (name material xPos yPos zPos xDir yDir zDir radius zsize : pyval)
  : result t :=
  '(d, o) ← set_density (F := float) material zsize;
  Ok (Phantom name material xPos yPos zPos xDir yDir zDir radius zsize d o).

End Phantom.

(** ** The characters of a [str]

    [re] works on characters, not on bytes.  The bytes of a name are read
    as [os.fsdecode] reads them: a well-formed UTF-8 sequence is one
    character, and a byte that starts none is the lone surrogate
    U+DC80..U+DCFF that the [surrogateescape] handler makes of it. *)

Module Str.

Record char := Char {
  code : Z;
  bytes : list ascii;
}.

Definition byte (c : ascii) : Z := Z.of_N (N_of_ascii c).

Definition between (lo b hi : Z) : bool := (lo <=? b)%Z && (b <=? hi)%Z.

Definition continuation (b : Z) : bool := between 0x80 b 0xBF.

(** The lead byte and the first continuation byte of a well-formed
    sequence of three bytes: no overlong form, no surrogate. *)
Definition three (b0 b1 : Z) : bool :=
  (b0 =? 0xE0)%Z && between 0xA0 b1 0xBF
  || between 0xE1 b0 0xEC && continuation b1
  || (b0 =? 0xED)%Z && between 0x80 b1 0x9F
  || between 0xEE b0 0xEF && continuation b1.

(** The same for four bytes: no overlong form, nothing above U+10FFFF. *)
Definition four (b0 b1 : Z) : bool :=
  (b0 =? 0xF0)%Z && between 0x90 b1 0xBF
  || between 0xF1 b0 0xF3 && continuation b1
  || (b0 =? 0xF4)%Z && between 0x80 b1 0x8F.

(** The code point of the first character and the number of bytes that
    hold it. *)
Definition decode_one (s : list ascii) : Z * nat :=
  let b i := default 0%Z (byte <$> s !! i) in
  let b0 := b 0%nat in
  let b1 := b 1%nat in
  let b2 := b 2%nat in
  let b3 := b 3%nat in
  if (b0 <? 0x80)%Z then (b0, 1%nat)
  else if between 0xC2 b0 0xDF && continuation b1 then
    (((b0 - 0xC0) * 64 + (b1 - 0x80))%Z, 2%nat)
  else if three b0 b1 && continuation b2 then
    (((b0 - 0xE0) * 4096 + (b1 - 0x80) * 64 + (b2 - 0x80))%Z, 3%nat)
  else if four b0 b1 && continuation b2 && continuation b3 then
    (((b0 - 0xF0) * 262144 + (b1 - 0x80) * 4096 + (b2 - 0x80) * 64 + (b3 - 0x80))%Z, 4%nat)
  else ((0xDC00 + b0)%Z, 1%nat).

(** The characters of the bytes, left to right.  Every character takes
    at least one byte, so a fuel of the number of bytes is enough. *)
Fixpoint decode (fuel : nat) (s : list ascii) : list char :=
  match fuel, s with
  | S fuel', _ :: _ =>
      let '(cp, k) := decode_one s in
      Char cp (take k s) :: decode fuel' (drop k s)
  | _, _ => []
  end.

Definition characters (s : string) : list char :=
  decode (String.length s) (list_ascii_of_string s).

(** The [str] made of the characters. *)
Definition text (l : list char) : string :=
  string_of_list_ascii (concat (bytes <$> l)).

End Str.

(** ** [re.search(r'\d+', name)] *)

Module Re.

Section Digits.
Context {char : Type} (is_digit : char -> bool).

(** What the greedy [\d+] consumes after its first digit. *)
Fixpoint more_digits (s : list char) : list char :=
  match s with
  | c :: s' => if is_digit c then c :: more_digits s' else []
  | [] => []
  end.

(** The match is tried at each position from the left; [group()] of the
    first one that succeeds is returned. *)
Fixpoint search_digits (s : list char) : option (list char) :=
  match s with
  | [] => None
  | c :: s' => if is_digit c then Some (c :: more_digits s') else search_digits s'
  end.
End Digits.

(** The digit 0 of every script with decimal digits (category Nd) in the
    Unicode tables of CPython 3.11 (Unicode 14.0); the digits 1 to 9 of a
    script follow its 0. *)
Definition decimal_zeros : list Z :=
  [0x30; 0x660; 0x6F0; 0x7C0; 0x966; 0x9E6; 0xA66; 0xAE6; 0xB66; 0xBE6; 0xC66;
   0xCE6; 0xD66; 0xDE6; 0xE50; 0xED0; 0xF20; 0x1040; 0x1090; 0x17E0; 0x1810;
   0x1946; 0x19D0; 0x1A80; 0x1A90; 0x1B50; 0x1BB0; 0x1C40; 0x1C50; 0xA620;
   0xA8D0; 0xA900; 0xA9D0; 0xA9F0; 0xAA50; 0xABF0; 0xFF10; 0x104A0; 0x10D30;
   0x11066; 0x110F0; 0x11136; 0x111D0; 0x112F0; 0x11450; 0x114D0; 0x11650;
   0x116C0; 0x11730; 0x118E0; 0x11950; 0x11C50; 0x11D50; 0x11DA0; 0x16A60;
   0x16AC0; 0x16B50; 0x1D7CE; 0x1D7D8; 0x1D7E2; 0x1D7EC; 0x1D7F6; 0x1E140;
   0x1E2F0; 0x1E950; 0x1FBF0]%Z.

(** [\d] in a [str] pattern: any Unicode decimal digit. *)
Definition unicode_digit (c : Str.char) : bool :=
  existsb (fun zero => Str.between zero (Str.code c) (zero + 9)) decimal_zeros.

Definition search (name : string) : option string :=
  Str.text <$> search_digits unicode_digit (Str.characters name).

End Re.

(** ** The process: standard output, written files, termination *)

(** A grayscale image: its rows, top to bottom. *)
Abbreviation image := (list (list Z)).

Inductive message :=
  | MsgNotExist (file : string)
  | MsgDecodeError
  | MsgNoPhantoms (file : string)
  | MsgMissingKey (number : nat) (e : exn)
  | MsgCreateError (number : nat) (e : exn)
  | MsgNoOutputDir.

Record pstate := PState {
  stdout : list message;
  files : gmap string image;
}.

Inductive outcome (A : Type) :=
  | Return (a : A)
  | SysExit (arg : option Z)
  | Uncaught (e : exn).
Arguments Return {A} a.
Arguments SysExit {A} arg.
Arguments Uncaught {A} e.

Definition proc (A : Type) : Type := pstate -> outcome A * pstate.

#[global] Instance proc_ret : MRet proc := fun A a st => (Return a, st).
#[global] Instance proc_bind : MBind proc := fun A B f m st =>
  match m st with
  | (Return a, st') => f a st'
  | (SysExit arg, st') => (SysExit arg, st')
  | (Uncaught e, st') => (Uncaught e, st')
  end.

Definition py_print (m : message) : proc unit :=
  fun st => (Return (), PState (stdout st ++ [m]) (files st)).

(** [sys.exit()] *)
Definition sys_exit {A : Type} : proc A := fun st => (SysExit None, st).

(** An expression evaluated outside any [try]. *)
Definition eval {A : Type} (r : result A) : proc A :=
  fun st => match r with
            | Ok a => (Return a, st)
            | Raise e => (Uncaught e, st)
            end.

(** The status the interpreter exits with: [sys.exit()] without an
    argument is a clean exit, a traceback is status 1. *)
Definition exit_status {A : Type} (o : outcome A) : Z :=
  match o with
  | Return _ => 0
  | SysExit None => 0
  | SysExit (Some code) => code
  | Uncaught _ => 1
  end.

(** ** What the program reads from its environment *)

(** A path as [ReadPhantomsFromConfiguration] finds it: nothing there;
    something [open] or the reading in [json.load] fails on, with an
    exception that is not a [json.JSONDecodeError] (OSError for a directory
    or a file without read permission, UnicodeDecodeError for bytes that
    are not text in the encoding of the locale, RecursionError for a
    nesting too deep); text [json.load] rejects with a decode error; or
    text it parses. *)
Inductive file_state :=
  | Absent
  | Unreadable (e : exn)
  | NotJSON
  | JSON (data : pyval).

Definition bbox : Type := float * float * float * float.

Record world := World {
  (** [os.listdir] *)
  listdir : string -> result (list string);
  (** [os.path.exists], then [open] and [json.load] *)
  file_at : string -> file_state;
  (** whether [img.save] to this path succeeds *)
  can_save : string -> bool;
  (** PIL's filled ellipse on an image of the given side: the pixels
      (column, row) it paints, all with the same ink *)
  ellipse : Z -> bbox -> result (Z -> Z -> bool);
  (** the 8-bit value PIL stores for a [fill] argument *)
  draw_ink : Z -> result Z;
}.

Record Params := {
  size_cm : num;
  px : Z;
}.

(** ** class PhantomScenario *)

Module PhantomScenario.

Record t := PhantomScenario {
  configuration_file : string;
  output_dir : string;
  phantoms : list Phantom.t;
  label : string + Z;
  params : Params;
}.

(** Returns the number contained in [name] if any. Else, 0. *)
Definition extract_index (name : string) : string + Z :=
  match Re.search name with
  | Some group => inl group
  | None => inr 0%Z
  end.

Definition init (configuration_file output_dir : string) (params : Params) : t :=
  PhantomScenario configuration_file output_dir [] (extract_index configuration_file) params.

Definition append (self : t) (phantom : Phantom.t) : t :=
  PhantomScenario (configuration_file self) (output_dir self)
    (phantoms self ++ [phantom]) (label self) (params self).

(** The body of the [try] in the loop: the ten subscripts are evaluated in
    the order of the keyword arguments, then the object is built. *)
Definition make_phantom (p : pyval) : result Phantom.t :=
  name ← py_getitem p "name";
  material ← py_getitem p "material";
  xPos ← py_getitem p "xPos";
  yPos ← py_getitem p "yPos";
  zPos ← py_getitem p "zPos";
  xDir ← py_getitem p "xDir";
  yDir ← py_getitem p "yDir";
  zDir ← py_getitem p "zDir";
  radius ← py_getitem p "radius";
  zsize ← py_getitem p "zsize";
  Phantom.init name material xPos yPos zPos xDir yDir zDir radius zsize.

(** The [for i, p in enumerate(phantoms_data)] loop; [i] counts from 0. *)
Fixpoint read_entries (self : t) (i : nat) (phantoms_data : list pyval) : proc t :=
  match phantoms_data with
  | [] => mret self
  | p :: rest =>
      match make_phantom p with
      | Ok phantom => read_entries (append self phantom) (S i) rest
      | Raise (KeyError key) =>
          py_print (MsgMissingKey (i + 1) (KeyError key));; sys_exit
      | Raise e =>
          py_print (MsgCreateError (i + 1) e);; sys_exit
      end
  end.

(** The value returned is [[]] on the early returns and [None] at the end
    of the body; the phantoms are left in [self.phantoms]. *)
Definition ReadPhantomsFromConfiguration (w : world) (self : t)
  : proc (t * option (list Phantom.t)) :=
  match file_at w (configuration_file self) with
  | Absent =>
      py_print (MsgNotExist (configuration_file self));; mret (self, Some [])
  | Unreadable e => eval (Raise e)
  | NotJSON =>
      py_print MsgDecodeError;; mret (self, Some [])
  | JSON data =>
      has_key ← eval (py_contains "Phantoms" data);
      if negb has_key then
        py_print (MsgNoPhantoms (configuration_file self));; mret (self, Some [])
      else
        phantoms_data ← eval (py_getitem data "Phantoms");
        entries ← eval (py_iter phantoms_data);
        self' ← read_entries self 0 entries;
        mret (self', None)
  end.

(** [Image.new('L', (n, n), (255))] *)
Definition Image_new (n : Z) : result image :=
  if (n <? 0)%Z then Raise ValueError
  else Ok (replicate (Z.to_nat n) (replicate (Z.to_nat n) 255%Z)).

(** Every pixel of the mask takes the ink; the others keep their value. *)
Definition paint (img : image) (mask : Z -> Z -> bool) (ink : Z) : image :=
  imap (fun row line =>
          imap (fun col v => if mask (Z.of_nat col) (Z.of_nat row) then ink else v) line)
       img.

(** [draw.ellipse(bbox, fill = opacity)] *)
Definition draw_ellipse (w : world) (n : Z) (img : image) (box : bbox) (fill : Z)
  : result image :=
  ink ← draw_ink w fill;
  mask ← ellipse w n box;
  Ok (paint img mask ink).

(** [[i * n / size for i in [p.xPos, p.yPos, p.radius]]] *)
Definition scale (ps : Params) (p : Phantom.t) : result (list float) :=
  comprehension
    (fun i => v ← py_mul i (PInt (px ps)); py_truediv v (of_num (size_cm ps)))
    [Phantom.xPos p; Phantom.yPos p; Phantom.radius p].

(** [int(255 - p.opacity * 255)] *)
Definition fill_of (p : Phantom.t) : result Z :=
  a ← num_mul (NFloat (Phantom.opacity p)) (NInt 255);
  b ← num_sub (NInt 255) a;
  py_int b.

(** [x_0, y_0, r = circle], then [x] and [y]: the centre and the radius
    in pixels. *)
Definition pixel_circle (center_x center_y : float) (circle : list float)
  : result (float * float * float) :=
  match circle with
  | [x_0; y_0; r] => Ok ((center_x + x_0)%float, (center_y + y_0)%float, r)
  | _ => Raise ValueError
  end.

Definition bounding_box (c : float * float * float) : bbox :=
  let '(x, y, r) := c in ((x - r)%float, (y - r)%float, (x + r)%float, (y + r)%float).

(** One iteration of the drawing loop. *)
Definition draw_phantom (w : world) (ps : Params) (center_x center_y : float)
    (img : image) (p : Phantom.t) : result image :=
  circle ← scale ps p;
  opacity ← fill_of p;
  c ← pixel_circle center_x center_y circle;
  draw_ellipse w (px ps) img (bounding_box c) opacity.

Fixpoint draw_all (w : world) (ps : Params) (center_x center_y : float)
    (img : image) (l : list Phantom.t) : result image :=
  match l with
  | [] => Ok img
  | p :: l' =>
      img' ← draw_phantom w ps center_x center_y img p;
      draw_all w ps center_x center_y img' l'
  end.

(** The image [GenerateImage] holds when it reaches [img.save]. *)
Definition render (w : world) (self : t) : result image :=
  center_x ← int_truediv (px (params self)) 2;
  center_y ← int_truediv (px (params self)) 2;
  img ← Image_new (px (params self));
  draw_all w (params self) center_x center_y img (phantoms self).

(** The pixel-space circle the loop computes for [p]. *)
Definition project (ps : Params) (p : Phantom.t) : result (float * float * float) :=
  center_x ← int_truediv (px ps) 2;
  center_y ← int_truediv (px ps) 2;
  circle ← scale ps p;
  pixel_circle center_x center_y circle.

Definition str_label (l : string + Z) : string :=
  match l with
  | inl s => s
  | inr z => pretty z
  end.

Definition output_path (self : t) : string :=
  output_dir self +:+ "/Phantoms_" +:+ str_label (label self) +:+ ".png".

(** [img.save(path)] inside the [try]: on any failure the handler prints
    and exits. *)
Definition save (w : world) (path : string) (img : image) : proc unit :=
  if can_save w path then
    fun st => (Return (), PState (stdout st) (<[path := img]> (files st)))
  else
    py_print MsgNoOutputDir;; sys_exit.

Definition GenerateImage (w : world) (self : t) : proc unit :=
  img ← eval (render w self);
  save w (output_path self) img.

End PhantomScenario.

(** ** class FolderAnalyzer *)

Module FolderAnalyzer.

Record t := FolderAnalyzer {
  input_dir : string;
  output_dir : string;
  params : Params;
}.

Definition analyze (w : world) (self : t) (file : string) : proc unit :=
  if str_contains ".json" file then
    let scene :=
      PhantomScenario.init (input_dir self +:+ "/" +:+ file) (output_dir self) (params self) in
    '(scene', _) ← PhantomScenario.ReadPhantomsFromConfiguration w scene;
    PhantomScenario.GenerateImage w scene'
  else mret ().

Fixpoint analyze_all (w : world) (self : t) (conf_files : list string) : proc unit :=
  match conf_files with
  | [] => mret ()
  | file :: rest => analyze w self file;; analyze_all w self rest
  end.

Definition makeAnalysis (w : world) (self : t) : proc unit :=
  conf_files ← eval (listdir w (input_dir self));
  analyze_all w self conf_files.

End FolderAnalyzer.

(** ** [__main__] *)

Definition image_params : Params := {| size_cm := NInt 25; px := 512 |}.

Definition main (w : world) (inputDir outputDir : string) : proc unit :=
  let loader := FolderAnalyzer.FolderAnalyzer inputDir outputDir image_params in
  FolderAnalyzer.makeAnalysis w loader.

Definition run (w : world) (inputDir outputDir : string) : outcome unit * pstate :=
  main w inputDir outputDir (PState [] ∅).

(** ** Vocabulary of the statements *)

(** The materials [set_density] recognizes. *)
Definition recognized : list string := ["lung"; "brain"; "fat"; "bone"].

(** The float [2^k]. *)
Definition pow2 (k : Z) : float := FloatOps.Z.ldexp 1%float k.

Definition same_value (material : string) (zsize : pyval) : bool :=
  match Phantom.set_density (F := float) (PStr material) zsize with
  | Ok (d, o) => PrimFloat.eqb o d
  | Raise _ => false
  end.

Definition close (tolerance : Q) (a b : float) : bool :=
  Qle_bool (Qabs (float_to_Q a - float_to_Q b)) tolerance.

Definition close_value (material : string) (zsize : pyval) : bool :=
  match Phantom.set_density (F := float) (PStr material) zsize with
  | Ok (d, o) => close (1 # 2 ^ 52) o d
  | Raise _ => false
  end.

(** The keys [make_phantom] subscripts, in the order it does. *)
Definition required_keys : list string :=
  ["name"; "material"; "xPos"; "yPos"; "zPos"; "xDir"; "yDir"; "zDir"; "radius"; "zsize"].

Definition complete (m : gmap string pyval) : Prop :=
  forallb (fun key => bool_decide (is_Some (m !! key))) required_keys = true.

(** What the handlers of the loading loop print for an exception. *)
Definition failure_message (number : nat) (e : exn) : message :=
  match e with
  | KeyError _ => MsgMissingKey number e
  | _ => MsgCreateError number e
  end.

(** The state after one more line on standard output. *)
Definition printed (st : pstate) (m : message) : pstate :=
  PState (stdout st ++ [m]) (files st).

(** The phantoms are the ones the entries construct, in the same order. *)
Definition constructs (entries : list pyval) (phantoms : list Phantom.t) : Prop :=
  Forall2 (fun e p => PhantomScenario.make_phantom e = Ok p) entries phantoms.

(** The file holds an object whose ["Phantoms"] is this list of entries. *)
Definition holds_entries (w : world) (path : string) (entries : list pyval) : Prop :=
  exists top, file_at w path = JSON (PDict top) /\ top !! "Phantoms" = Some (PList entries).

Definition path_of (fa : FolderAnalyzer.t) (file : string) : string :=
  FolderAnalyzer.input_dir fa +:+ "/" +:+ file.

(** [self] after [phantoms] have been appended to [self.phantoms]. *)
Definition extend (self : PhantomScenario.t) (phantoms : list Phantom.t) : PhantomScenario.t :=
  PhantomScenario.PhantomScenario
    (PhantomScenario.configuration_file self) (PhantomScenario.output_dir self)
    (PhantomScenario.phantoms self ++ phantoms)
    (PhantomScenario.label self) (PhantomScenario.params self).

(** The values a zero [zsize] can have. *)
Definition zero_lengths : list pyval := [PInt 0; PFloat 0; PFloat (-0)].

(** The first required key the entry lacks. *)
Definition first_missing (m : gmap string pyval) : option string :=
  List.find (fun key => bool_decide (m !! key = None)) required_keys.

(** The three failures of a file as a whole, with what is printed. *)
Inductive file_failure (w : world) (path : string) : message -> Prop :=
  | file_missing :
      file_at w path = Absent -> file_failure w path (MsgNotExist path)
  | file_not_json :
      file_at w path = NotJSON -> file_failure w path MsgDecodeError
  | file_without_phantoms (data : pyval) :
      file_at w path = JSON data -> py_contains "Phantoms" data = Ok false ->
      file_failure w path (MsgNoPhantoms path).

(** The scenario [makeAnalysis] builds for a file. *)
Definition scene_of (fa : FolderAnalyzer.t) (file : string) : PhantomScenario.t :=
  PhantomScenario.init (path_of fa file) (FolderAnalyzer.output_dir fa)
                       (FolderAnalyzer.params fa).

(** The state after an image has been written. *)
Definition written (st : pstate) (path : string) (img : image) : pstate :=
  PState (stdout st) (<[path := img]> (files st)).

(** [sys.exit] is only ever called without an argument. *)
Definition plain_exit {A : Type} (o : outcome A) : Prop :=
  match o with
  | SysExit (Some _) => False
  | _ => True
  end.

(** What [__main__] builds. *)
Definition loader (inputDir outputDir : string) : FolderAnalyzer.t :=
  FolderAnalyzer.FolderAnalyzer inputDir outputDir image_params.

(** [v * n / size]: a length in centimetres as a length in pixels. *)
Definition to_pixels (ps : Params) (v : pyval) : result float :=
  t ← py_mul v (PInt (px ps)); py_truediv t (of_num (size_cm ps)).

(** The integer part of a rational, toward zero. *)
Definition Qtrunc (q : Q) : Z :=
  if Qle_bool 0 q then Qfloor q else Qceiling q.

(** The value of a pixel, if the image has it. *)
Definition pixel (img : image) (col row : nat) : option Z :=
  line ← img !! row; line !! col.

(** The ellipse drawn for [p] paints the pixel. *)
Definition covers (w : world) (ps : Params) (p : Phantom.t) (col row : nat) : Prop :=
  exists circle mask,
    PhantomScenario.project ps p = Ok circle /\
    ellipse w (px ps) (PhantomScenario.bounding_box circle) = Ok mask /\
    mask (Z.of_nat col) (Z.of_nat row) = true.

(** The value stored for the pixels of [p]. *)
Definition ink_of (w : world) (p : Phantom.t) : result Z :=
  fill ← PhantomScenario.fill_of p; draw_ink w fill.

(** The keys of an entry that rendering never reads. *)
Definition unused_keys : list string := ["zPos"; "xDir"; "yDir"; "zDir"].

(** Two entries with the same keys that agree on every key but the unused
    ones. *)
Definition differ_only_unused (e e' : pyval) : Prop :=
  exists m m',
    e = PDict m /\ e' = PDict m' /\
    (forall key, key ∉ unused_keys -> m !! key = m' !! key) /\
    (forall key, key ∈ unused_keys -> is_Some (m !! key) <-> is_Some (m' !! key)).

(** Two phantoms that agree on everything but [zPos] and the direction. *)
Definition same_but_unused (p p' : Phantom.t) : Prop :=
  Phantom.name p = Phantom.name p' /\ Phantom.material p = Phantom.material p' /\
  Phantom.xPos p = Phantom.xPos p' /\ Phantom.yPos p = Phantom.yPos p' /\
  Phantom.radius p = Phantom.radius p' /\ Phantom.zsize p = Phantom.zsize p' /\
  Phantom.density p = Phantom.density p' /\ Phantom.opacity p = Phantom.opacity p'.

Definition same_scene (s s' : PhantomScenario.t) : Prop :=
  PhantomScenario.configuration_file s = PhantomScenario.configuration_file s' /\
  PhantomScenario.output_dir s = PhantomScenario.output_dir s' /\
  PhantomScenario.label s = PhantomScenario.label s' /\
  PhantomScenario.params s = PhantomScenario.params s' /\
  Forall2 same_but_unused (PhantomScenario.phantoms s) (PhantomScenario.phantoms s').

(** The floats above zero, as [Prim2SF] shows them. *)
Definition positive_sf (x : spec_float) : Prop :=
  match x with
  | S754_finite false _ _ | S754_infinity false => True
  | _ => False
  end.

(** ** Inputs to evaluate the program on *)

(** A rasterizer to run examples with: the pixels whose centre lies in the
    ellipse inscribed in the box; a box with a negative extent is refused. *)
Definition disk (n : Z) (box : bbox) : result (Z -> Z -> bool) :=
  let '(x0, y0, x1, y1) := box in
  if PrimFloat.ltb x1 x0 || PrimFloat.ltb y1 y0 then Raise ValueError
  else
    let cx := ((x0 + x1) / 2)%float in
    let cy := ((y0 + y1) / 2)%float in
    let rx := ((x1 - x0) / 2)%float in
    let ry := ((y1 - y0) / 2)%float in
    Ok (fun col row =>
          let dx := (SF2Prim (binary_normalize prec emax col 0 false) - cx)%float in
          let dy := (SF2Prim (binary_normalize prec emax row 0 false) - cy)%float in
          PrimFloat.leb (dx * dx * (ry * ry) + dy * dy * (rx * rx))%float
                        (rx * rx * (ry * ry))%float).

Definition clip8 (fill : Z) : result Z := Ok (Z.max 0 (Z.min 255 fill)).

(** A phantom entry with every required key. *)
Definition entry (material : string) (xPos yPos radius zsize : pyval) : gmap string pyval :=
  list_to_map [("name", PStr "phantom"); ("material", PStr material);
               ("xPos", xPos); ("yPos", yPos); ("zPos", PInt 0);
               ("xDir", PInt 0); ("yDir", PInt 0); ("zDir", PInt 1);
               ("radius", radius); ("zsize", zsize)].

Definition configuration (entries : list pyval) : pyval :=
  PDict {["Phantoms" := PList entries]}.

(** The directory [dir] holding the given files, with an output directory
    that can or cannot be written. *)
Definition folder (dir : string) (content : list (string * file_state)) (writable : bool)
  : world :=
  World (fun _ => Ok content.*1)
        (fun path =>
           match List.find (fun f => bool_decide (path = dir +:+ "/" +:+ f.1)) content with
           | Some f => f.2
           | None => Absent
           end)
        (fun _ => writable) disk clip8.

(** The phantom an entry of [entry] constructs. *)
Definition phantom_of (material : string) (xPos yPos radius zsize : pyval) : Phantom.t :=
  match PhantomScenario.make_phantom (PDict (entry material xPos yPos radius zsize)) with
  | Ok p => p
  | Raise _ =>
      Phantom.Phantom PNone PNone PNone PNone PNone PNone PNone PNone PNone PNone 0 0
  end.

Definition fat_phantom : Phantom.t :=
  Eval vm_compute in phantom_of "fat" (PInt 0) (PInt 0) (PInt 5) (PInt 10).

Definition bone_phantom : Phantom.t :=
  Eval vm_compute in phantom_of "bone" (PInt 2) (PInt 0) (PInt 3) (PInt 10).

Definition empty_folder : world := folder "." [] true.

Definition small : Params := {| size_cm := NInt 25; px := 8 |}.

Definition analyzer (dir : string) : FolderAnalyzer.t :=
  FolderAnalyzer.FolderAnalyzer dir "./output" small.

(** A scene of two phantoms that overlap. *)
Definition overlapping : PhantomScenario.t :=
  PhantomScenario.PhantomScenario "./Configuration_1.json" "./output"
    [fat_phantom; bone_phantom] (inl "1") small.

(** ** Vocabulary of the further properties *)

(** The value equals none of the materials of the table. *)
Definition unrecognized (material : pyval) : Prop :=
  Forall (fun s => eq_str material s = false) recognized.

(** The constructor returns, with an opacity of at least 1 and a fill
    intensity of at most 0. *)
Definition saturated (material : string) (zsize : pyval) : bool :=
  match Phantom.set_density (F := float) (PStr material) zsize with
  | Ok (d, o) =>
      PrimFloat.leb 1 o &&
      match float_trunc (255 - o * 255)%float with
      | Ok fill => (fill <=? 0)%Z
      | Raise _ => false
      end
  | Raise _ => false
  end.

(** The exceptions the construction of a phantom can end with, apart from
    KeyError. *)
Definition constructor_errors : list exn :=
  [TypeError; OverflowError; IndexError; ZeroDivisionError].

(** The two maps have the same value, or none, under every required key. *)
Definition required_agree (m m' : gmap string pyval) : Prop :=
  forall key, key ∈ required_keys -> m !! key = m' !! key.

(** null, true, false or a number. *)
Definition scalar (v : pyval) : Prop :=
  match v with
  | PNone | PBool _ | PInt _ | PFloat _ => True
  | _ => False
  end.

(** An image of [n] rows of [n] pixels. *)
Definition square (n : nat) (img : image) : Prop :=
  length img = n /\ Forall (fun line => length line = n) img.

(** The test [disk] makes for a pixel. *)
Definition in_disk (box : bbox) (col row : Z) : bool :=
  let '(x0, y0, x1, y1) := box in
  let cx := ((x0 + x1) / 2)%float in
  let cy := ((y0 + y1) / 2)%float in
  let rx := ((x1 - x0) / 2)%float in
  let ry := ((y1 - y0) / 2)%float in
  let dx := (SF2Prim (binary_normalize prec emax col 0 false) - cx)%float in
  let dy := (SF2Prim (binary_normalize prec emax row 0 false) - cy)%float in
  PrimFloat.leb (dx * dx * (ry * ry) + dy * dy * (rx * rx))%float
                (rx * rx * (ry * ry))%float.

(** The lengths that are not finite numbers (Python's [json] reads the
    literals NaN, Infinity and -Infinity). *)
Definition non_finite_lengths : list pyval :=
  [PFloat nan; PFloat infinity; PFloat neg_infinity].

(** * Properties *)

(** ** Evaluation lemmas *)

Lemma bind_Ok {A B : Type} (a : A) (f : A -> result B) : Ok a ≫= f = f a.
Proof. reflexivity. Qed.

Lemma bind_Ok_inv {A B : Type} (r : result A) (f : A -> result B) (b : B) :
  r ≫= f = Ok b -> exists a, r = Ok a /\ f a = Ok b.
Proof. destruct r as [a |]; [eauto | discriminate]. Qed.

Lemma comprehension_total {A B : Type} (f : A -> B) (l : list A) :
  comprehension (fun a => Ok (f a)) l = Ok (f <$> l).
Proof.
  induction l as [| a l IH]; [reflexivity |].
  cbn [comprehension]. rewrite bind_Ok, IH. reflexivity.
Qed.

Lemma subscript_fmap {A B : Type} (f : A -> B) (l : list A) (i : nat) (a : A) :
  Phantom.subscript l i = Ok a -> Phantom.subscript (f <$> l) i = Ok (f a).
Proof.
  unfold Phantom.subscript. rewrite list_lookup_fmap.
  destruct (l !! i); [| discriminate]. intros [= ->]. reflexivity.
Qed.

Lemma py_max_fmap {A : Type} (gt : A -> A -> bool) (f : A -> A) (l : list A) :
  (forall a b, gt (f a) (f b) = gt a b) ->
  py_max gt (f <$> l) = f <$> py_max gt l.
Proof.
  intros Hgt. destruct l as [| x l]; [reflexivity |].
  rewrite fmap_cons. cbn [py_max fmap result_fmap]. f_equal.
  revert x. induction l as [| y l IH]; intros x; [reflexivity |].
  rewrite fmap_cons. cbn [fold_left]. rewrite Hgt.
  destruct (gt y x); apply IH.
Qed.

(** ** Rounding: a product of positive floats is not zero *)

Lemma digits2_size (p : positive) : digits2_pos p = Pos.size p.
Proof. induction p; cbn; congruence. Qed.

Lemma digits2_bounds (p : positive) :
  (2 ^ (Z.pos (digits2_pos p) - 1) <= Z.pos p < 2 ^ Z.pos (digits2_pos p))%Z.
Proof.
  rewrite digits2_size. split.
  - pose proof (Pos.size_le p) as H.
    assert (Z.pos (2 ^ Pos.size p) <= Z.pos p~0)%Z as H' by exact H.
    rewrite Pos2Z.inj_pow in H'. change (Z.pos p~0) with (2 * Z.pos p)%Z in H'.
    replace (2 ^ Z.pos (Pos.size p))%Z with (2 * 2 ^ (Z.pos (Pos.size p) - 1))%Z in H'.
    + lia.
    + rewrite <- Z.pow_succ_r by lia. f_equal. lia.
  - pose proof (Pos.size_gt p) as H.
    assert (Z.pos p < Z.pos (2 ^ Pos.size p))%Z as H' by exact H.
    by rewrite Pos2Z.inj_pow in H'.
Qed.

Lemma shr_1_m (mrs : shr_record) : (0 <= shr_m mrs)%Z -> shr_m (shr_1 mrs) = (shr_m mrs / 2)%Z.
Proof.
  destruct mrs as [m r s]. cbn [shr_m]. intros Hm.
  destruct m as [| [p | p |] |]; cbn [shr_1 shr_m]; try reflexivity; try lia.
  - change (Z.pos p~1) with (2 * Z.pos p + 1)%Z.
    apply Z.div_unique with (r := 1%Z); lia.
  - change (Z.pos p~0) with (2 * Z.pos p)%Z.
    apply Z.div_unique with (r := 0%Z); lia.
Qed.

Lemma iter_pos_nat {A : Type} (f : A -> A) (p : positive) (x : A) :
  SpecFloat.iter_pos f p x = Nat.iter (Pos.to_nat p) f x.
Proof.
  revert x. induction p as [p IH | p IH |]; intros x; cbn [SpecFloat.iter_pos].
  - rewrite !IH, Pos2Nat.inj_xI. cbn [Nat.iter]. 
    rewrite <- Nat.iter_succ_r. rewrite <- Nat.iter_add. f_equal. lia.
  - rewrite !IH, Pos2Nat.inj_xO. rewrite <- Nat.iter_add. f_equal. lia.
  - reflexivity.
Qed.

Lemma shr_iter_m (n : nat) (mrs : shr_record) :
  (0 <= shr_m mrs)%Z ->
  shr_m (Nat.iter n shr_1 mrs) = (shr_m mrs / 2 ^ Z.of_nat n)%Z.
Proof.
  intros Hm. induction n as [| n IH].
  - cbn. by rewrite Z.div_1_r.
  - rewrite Nat.iter_succ, shr_1_m.
    + rewrite IH, Nat2Z.inj_succ, Z.pow_succ_r by lia.
      rewrite Z.div_div by lia. f_equal. lia.
    + rewrite IH. apply Z.div_pos; lia.
Qed.

Lemma shr_m_value (mrs : shr_record) (e n : Z) :
  (0 <= shr_m mrs)%Z ->
  shr_m (shr mrs e n).1 = (shr_m mrs / 2 ^ Z.max 0 n)%Z /\
  (shr mrs e n).2 = (e + Z.max 0 n)%Z.
Proof.
  intros Hm. destruct n as [| p | p]; cbn [shr fst snd].
  - rewrite Z.max_id, Z.div_1_r. lia.
  - rewrite iter_pos_nat, shr_iter_m, positive_nat_Z by assumption.
    rewrite Z.max_r by lia. done.
  - rewrite Z.max_l by lia. rewrite Z.div_1_r. lia.
Qed.

Lemma shr_record_m (m : Z) (l : location) : shr_m (shr_record_of_loc m l) = m.
Proof. by destruct l as [| []]. Qed.

(** Rounding a positive integer that is at least the smallest subnormal
    does not give zero. *)
Lemma shr_fexp_positive (m : positive) (e : Z) (l : location) :
  (emin <= e + Z.pos (digits2_pos m) - 1)%Z ->
  (1 <= shr_m (shr_fexp prec emax (Z.pos m) e l).1)%Z /\
  (emin <= (shr_fexp prec emax (Z.pos m) e l).2)%Z /\
  (emin <= (shr_fexp prec emax (Z.pos m) e l).2
           + Zdigits2 (shr_m (shr_fexp prec emax (Z.pos m) e l).1) - 1)%Z.
Proof.
  intros Hmin. unfold shr_fexp.
  set (n := (fexp prec emax (Zdigits2 (Z.pos m) + e) - e)%Z).
  destruct (shr_m_value (shr_record_of_loc (Z.pos m) l) e n) as [Hm He].
  { rewrite shr_record_m. lia. }
  rewrite Hm, He, shr_record_m. clear Hm He.
  pose proof (digits2_bounds m) as [Hlo Hhi].
  assert (Z.max 0 n <= Z.pos (digits2_pos m) - 1)%Z as Hn.
  { subst n. unfold fexp. cbn [Zdigits2]. unfold SpecFloat.emin, prec, emax in *. lia. }
  assert (emin <= e + Z.max 0 n)%Z as He.
  { subst n. unfold fexp. cbn [Zdigits2]. unfold SpecFloat.emin, prec, emax in *. lia. }
  assert (2 ^ Z.max 0 n <= Z.pos m)%Z as Hpow.
  { etransitivity; [| exact Hlo]. apply Z.pow_le_mono_r; lia. }
  assert (1 <= Z.pos m / 2 ^ Z.max 0 n)%Z as Hq.
  { apply Z.div_le_lower_bound; lia. }
  split; [exact Hq |]. split; [exact He |].
  destruct (Z.pos m / 2 ^ Z.max 0 n)%Z as [| q | q] eqn:Eq; [lia | | lia].
  cbn [Zdigits2]. pose proof (Pos2Z.is_pos (digits2_pos q)). lia.
Qed.


Lemma round_nearest_even_ge (m : Z) (l : location) : (m <= round_nearest_even m l)%Z.
Proof. destruct l as [| []]; cbn; [lia | | lia | lia]. destruct (Z.even m); lia. Qed.

Lemma binary_round_aux_positive (m : positive) (e : Z) (l : location) :
  (emin <= e + Z.pos (digits2_pos m) - 1)%Z ->
  positive_sf (binary_round_aux prec emax false (Z.pos m) e l).
Proof.
  intros Hmin. unfold binary_round_aux.
  destruct (shr_fexp_positive m e l Hmin) as (Hm1 & He1 & _).
  destruct (shr_fexp prec emax (Z.pos m) e l) as [mrs1 e1]. cbn [fst snd] in Hm1, He1.
  pose proof (round_nearest_even_ge (shr_m mrs1) (loc_of_shr_record mrs1)) as Hround.
  destruct (round_nearest_even (shr_m mrs1) (loc_of_shr_record mrs1)) as [| m2 | m2];
    [lia | | lia].
  destruct (shr_fexp_positive m2 e1 loc_Exact) as (Hm3 & _).
  { pose proof (Pos2Z.is_pos (digits2_pos m2)). lia. }
  destruct (shr_fexp prec emax (Z.pos m2) e1 loc_Exact) as [mrs3 e3]. cbn [fst] in Hm3.
  destruct (shr_m mrs3) as [| m3 | m3]; [lia | | lia].
  by destruct (e3 <=? emax - prec)%Z.
Qed.

Lemma valid_exponent (m : positive) (e : Z) : bounded prec emax m e = true -> (emin <= e)%Z.
Proof.
  unfold bounded, canonical_mantissa. intros H%andb_prop. destruct H as [H _].
  apply Z.eqb_eq in H. unfold fexp in H. lia.
Qed.

Lemma SFmul_positive (M m : positive) (E e : Z) :
  (2 ^ 52 <= Z.pos M)%Z -> (- 52 <= E)%Z -> bounded prec emax m e = true ->
  positive_sf (SFmul prec emax (S754_finite false M E) (S754_finite false m e)).
Proof.
  intros HM HE Hvalid%valid_exponent. cbn [SFmul xorb].
  apply binary_round_aux_positive.
  pose proof (digits2_bounds (M * m)) as [_ Hhi].
  assert (2 ^ 52 < 2 ^ Z.pos (digits2_pos (M * m)))%Z as Hpow.
  { eapply Z.le_lt_trans; [| exact Hhi]. rewrite Pos2Z.inj_mul. nia. }
  apply Z.pow_lt_mono_r_iff in Hpow; lia.
Qed.

Lemma positive_float (f : float) :
  PrimFloat.ltb 0 f = true <-> positive_sf (Prim2SF f).
Proof.
  rewrite FloatAxioms.ltb_spec. change (Prim2SF 0) with (S754_zero false).
  unfold SFltb. destruct (Prim2SF f) as [[] | [] | | [] m e]; cbn; intuition discriminate.
Qed.

(** A positive normal constant times a positive float is positive: the
    product does not round to zero. *)
Lemma float_mul_positive (d f : float) (M : positive) (E : Z) :
  Prim2SF d = S754_finite false M E -> (2 ^ 52 <= Z.pos M)%Z -> (- 52 <= E)%Z ->
  PrimFloat.ltb 0 f = true -> PrimFloat.ltb 0 (d * f) = true.
Proof.
  intros Hd HM HE Hf. apply positive_float. apply positive_float in Hf.
  rewrite FloatAxioms.mul_spec, Hd. pose proof (Prim2SF_valid f) as Hvalid.
  destruct (Prim2SF f) as [[] | [] | | [] m e]; try contradiction.
  - exact I.
  - by apply SFmul_positive.
Qed.

Lemma zero_lt (m x : float) :
  PrimFloat.eqb m 0 = true -> PrimFloat.ltb 0 x = true -> PrimFloat.ltb m x = true.
Proof.
  rewrite FloatAxioms.eqb_spec, !FloatAxioms.ltb_spec. change (Prim2SF 0) with (S754_zero false).
  unfold SFeqb, SFltb.
  destruct (Prim2SF m) as [[] | [] | | [] ? ?]; cbn; try discriminate;
    intros _; destruct (Prim2SF x) as [[] | [] | | [] ? ?]; cbn; done.
Qed.

Lemma positive_nonzero (x : float) : PrimFloat.ltb 0 x = true -> PrimFloat.eqb x 0 = false.
Proof.
  rewrite FloatAxioms.eqb_spec, FloatAxioms.ltb_spec. change (Prim2SF 0) with (S754_zero false).
  unfold SFeqb, SFltb. destruct (Prim2SF x) as [[] | [] | | [] ? ?]; cbn; done.
Qed.

(** ** The density model *)

Lemma recognized_cases (P : string -> Prop) :
  P "lung" -> P "brain" -> P "fat" -> P "bone" ->
  forall material, material ∈ recognized -> P material.
Proof.
  intros H1 H2 H3 H4 material Hin.
  unfold recognized in Hin.
  repeat (apply elem_of_cons in Hin as [-> | Hin]; [assumption |]).
  by apply elem_of_nil in Hin.
Qed.

Section Exact.
Import Phantom.
Variable zsize : Q.
Hypothesis zsize_pos : (0 < zsize)%Q.

Lemma Qle_bool_scale (a b : Q) : Qle_bool (a * zsize) (b * zsize) = Qle_bool a b.
Proof.
  apply eq_true_iff_eq. rewrite !Qle_bool_iff.
  split; intros H.
  - apply Qmult_le_r in H; assumption.
  - apply Qmult_le_r; assumption.
Qed.

Lemma Q_truediv_scale (a b : Q) :
  Qeq_bool b 0 = false ->
  exists q, Q_truediv (a * zsize) (b * zsize) = Ok q /\ Q_truediv a b = Ok (a / b)%Q /\ (q == a / b)%Q.
Proof.
  intros Hb. unfold Q_truediv. rewrite Hb.
  assert (Hb' : ~ (b == 0)%Q) by (intros H%Qeq_bool_iff; congruence).
  assert (Hz : ~ (zsize == 0)%Q) by (intros H; rewrite H in zsize_pos; by apply Qlt_irrefl in zsize_pos).
  destruct (Qeq_bool (b * zsize) 0) eqn:E.
  - apply Qeq_bool_iff in E. apply Qmult_integral in E as [E | E]; contradiction.
  - eexists; split; [reflexivity |]. split; [reflexivity |]. by field.
Qed.

Lemma exact_opacity (material : string) :
  material ∈ recognized ->
  exists d o, set_density (F := Q) (PStr material) zsize = Ok (d, o) /\ (o == d)%Q.
Proof.
  intros Hin.
  assert (exists index d, subscript (matching (PStr material) recognized) 0 = Ok index /\
            subscript [decimal 296 3; decimal 104 2; decimal 92 2; decimal 190 2] index = Ok d)
    as (index & d & Hindex & Hd).
  { revert material Hin. apply recognized_cases; eexists _, _; split; reflexivity. }
  unfold set_density. cbn [rmul exact_real].
  rewrite (comprehension_total (fun d => d * zsize)%Q), bind_Ok.
  fold recognized. rewrite Hindex, bind_Ok, Hd, bind_Ok.
  rewrite (subscript_fmap _ _ _ _ Hd).
  rewrite (py_max_fmap _ (fun d => d * zsize)%Q).
  2:{ intros a b. cbn [rgt exact_real]. by rewrite Qle_bool_scale. }
  assert (py_max rgt [decimal 296 3; decimal 104 2; decimal 92 2; decimal 190 2]
          = Ok (decimal (F := Q) 190 2)) as -> by reflexivity.
  cbn [fmap result_fmap]. rewrite !bind_Ok. cbn [rdiv exact_real].
  destruct (Q_truediv_scale d (decimal 190 2)) as (q & Hscaled & Hplain & Hq); [reflexivity |].
  rewrite Hplain, !bind_Ok, Hscaled, bind_Ok. eauto.
Qed.
End Exact.

(** ** The density model in binary64 *)

Lemma forallb_seqZ (f : Z -> bool) (lo len k : Z) :
  forallb f (seqZ lo len) = true -> (lo <= k < lo + len)%Z -> f k = true.
Proof.
  intros Hall Hk. rewrite forallb_forall in Hall. apply Hall.
  apply list_elem_of_In, elem_of_seqZ. lia.
Qed.

Lemma forallb_recognized (f : string -> bool) (material : string) :
  forallb f recognized = true -> material ∈ recognized -> f material = true.
Proof.
  intros Hall Hin. rewrite forallb_forall in Hall. by apply Hall, list_elem_of_In.
Qed.

Lemma powers_of_two_checked :
  forallb (fun k => forallb (fun m => same_value m (PFloat (pow2 k))) recognized)
          (seqZ (-1020) 2044) = true.
Proof. vm_compute. reflexivity. Qed.

Lemma integers_checked :
  forallb (fun n => forallb (fun m => close_value m (PInt n)) recognized)
          (seqZ 1 1000) = true.
Proof. vm_compute. reflexivity. Qed.




(** ** What [set_density] assigns *)

Lemma set_density_inv `{Real F V} (material : pyval) (zsize : V) (d o : F) :
  Phantom.set_density material zsize = Ok (d, o) ->
  let density := [decimal 296 3; decimal 104 2; decimal 92 2; decimal 190 2] in
  exists opacity index di dmax oi omax,
    comprehension (fun x => rmul x zsize) density = Ok opacity /\
    Phantom.subscript (Phantom.matching material recognized) 0 = Ok index /\
    Phantom.subscript density index = Ok di /\
    py_max rgt density = Ok dmax /\
    rdiv di dmax = Ok d /\
    Phantom.subscript opacity index = Ok oi /\
    py_max rgt opacity = Ok omax /\
    rdiv oi omax = Ok o.
Proof.
  unfold Phantom.set_density. fold recognized. intros Hrun.
  apply bind_Ok_inv in Hrun as (opacity & Hopacity & Hrun).
  apply bind_Ok_inv in Hrun as (index & Hindex & Hrun).
  apply bind_Ok_inv in Hrun as (di & Hdi & Hrun).
  apply bind_Ok_inv in Hrun as (dmax & Hdmax & Hrun).
  apply bind_Ok_inv in Hrun as (d' & Hd & Hrun).
  apply bind_Ok_inv in Hrun as (oi & Hoi & Hrun).
  apply bind_Ok_inv in Hrun as (omax & Homax & Hrun).
  apply bind_Ok_inv in Hrun as (o' & Ho & Hrun).
  injection Hrun as -> ->.
  exists opacity, index, di, dmax, oi, omax. tauto.
Qed.

(** The value line 61 assigns, material by material. *)
Lemma density_of_material (material : string) (zsize : pyval) (d o : float) :
  material ∈ recognized ->
  Phantom.set_density (PStr material) zsize = Ok (d, o) ->
  exists index di,
    Phantom.subscript (Phantom.matching (PStr material) recognized) 0 = Ok index /\
    Phantom.subscript [float_literal 296 3; float_literal 104 2;
                       float_literal 92 2; float_literal 190 2] index = Ok di /\
    d = (di / float_literal 190 2)%float.
Proof.
  intros Hin Hrun.
  apply set_density_inv in Hrun
    as (opacity & index & di & dmax & oi & omax & _ & Hindex & Hdi & Hdmax & Hd & _).
  exists index, di. split; [exact Hindex |]. split; [exact Hdi |].
  vm_compute in Hdmax. injection Hdmax as <-.
  cbn [rdiv float_real] in Hd. unfold float_truediv in Hd.
  change (PrimFloat.eqb _ 0) with false in Hd. by injection Hd as <-.
Qed.

Lemma float_mul_number (d : float) (zsize : pyval) (n : num) (f : float) :
  as_num zsize = Some n -> to_float n = Ok f -> float_mul d zsize = Ok (d * f)%float.
Proof. intros Hn Hf. unfold float_mul. by rewrite Hn, Hf. Qed.

(** With a positive length the largest areal density is not zero, and the
    constructor returns. *)
Lemma set_density_positive (material : string) (zsize : pyval) (n : num) (f : float) :
  material ∈ recognized ->
  as_num zsize = Some n -> to_float n = Ok f -> PrimFloat.ltb 0 f = true ->
  exists d o, Phantom.set_density (PStr material) zsize = Ok (d, o).
Proof.
  intros Hin Hn Hf Hpos.
  assert (exists index di d,
            Phantom.subscript (Phantom.matching (PStr material) recognized) 0 = Ok index /\
            Phantom.subscript [float_literal 296 3; float_literal 104 2;
                               float_literal 92 2; float_literal 190 2] index = Ok di /\
            float_truediv di (float_literal 190 2) = Ok d /\ (index < 4)%nat)
    as (index & di & d & Hindex & Hdi & Hd & Hlt).
  { revert material Hin. apply recognized_cases; eexists _, _, _;
      (split; [vm_compute; reflexivity |]); (split; [reflexivity |]);
      (split; [reflexivity | lia]). }
  unfold Phantom.set_density. fold recognized.
  cbn [comprehension rmul rdiv rgt decimal float_real].
  rewrite !(float_mul_number _ _ _ _ Hn Hf), !bind_Ok.
  rewrite Hindex, bind_Ok, Hdi, bind_Ok.
  assert (py_max (fun a b => PrimFloat.ltb b a)
            [float_literal 296 3; float_literal 104 2; float_literal 92 2; float_literal 190 2]
          = Ok (float_literal 190 2)) as -> by reflexivity.
  rewrite bind_Ok, Hd, bind_Ok.
  set (bone := (float_literal 190 2 * f)%float).
  assert (PrimFloat.ltb 0 bone = true) as Hbone.
  { apply (float_mul_positive _ _ 8556839292003942 (-52)); [reflexivity | lia | lia | exact Hpos]. }
  match goal with
  | |- context [Phantom.subscript ?l index] =>
      assert (exists oi, Phantom.subscript l index = Ok oi) as [oi ->]
  end.
  { unfold Phantom.subscript. do 4 (destruct index as [| index]; [eauto |]). cbn in Hlt. lia. }
  rewrite bind_Ok. cbn [py_max fold_left]. fold bone.
  match goal with
  | |- context [if PrimFloat.ltb ?m bone then bone else ?m] => set (others := m)
  end.
  rewrite bind_Ok. unfold float_truediv.
  destruct (PrimFloat.ltb others bone) eqn:Hmax.
  - rewrite (positive_nonzero _ Hbone). rewrite bind_Ok. eauto.
  - destruct (PrimFloat.eqb others 0) eqn:Hzero.
    + rewrite (zero_lt _ _ Hzero Hbone) in Hmax. discriminate.
    + rewrite bind_Ok. eauto.
Qed.

(** C7: for each of the four recognized materials the normalized density
    of a constructed phantom lies in (0, 1], and for bone it is exactly
    1.0, whatever the axial length; and with any positive axial length (a
    number whose float value is above zero) the phantom is constructed. *)
Theorem density_in_unit_interval (material : string) (zsize : pyval) :
  material ∈ recognized ->
  (forall d o,
     Phantom.set_density (PStr material) zsize = Ok (d, o) ->
     PrimFloat.ltb 0 d = true /\ PrimFloat.leb d 1 = true /\
     (material = "bone" -> d = 1%float)) /\
  (forall n f,
     as_num zsize = Some n -> to_float n = Ok f -> PrimFloat.ltb 0 f = true ->
     exists d o, Phantom.set_density (PStr material) zsize = Ok (d, o)).
Proof.
  intros Hin. split; [| intros n f; by apply set_density_positive].
  intros d o Hrun.
  destruct (density_of_material _ _ _ _ Hin Hrun) as (index & di & Hindex & Hdi & ->).
  clear Hrun. revert Hindex. pattern material. revert material Hin.
  apply recognized_cases; intros Hindex; vm_compute in Hindex;
    injection Hindex as <-; vm_compute in Hdi; injection Hdi as <-;
    (split; [reflexivity |]); (split; [reflexivity |]);
    first [discriminate | intros _; reflexivity].
Qed.

Lemma density_in_unit_interval_witness :
  "bone" ∈ recognized /\
  Phantom.set_density (PStr "bone") (PFloat 10) = Ok (1%float, 1%float) /\
  PrimFloat.ltb 0 1 = true /\ PrimFloat.leb 1 1 = true /\ ("bone" = "bone" -> 1%float = 1%float).
Proof.
  assert ("bone" ∈ recognized) as Hin by (unfold recognized; repeat constructor).
  assert (Phantom.set_density (PStr "bone") (PFloat 10) = Ok (1%float, 1%float)) as Hrun
    by (vm_compute; reflexivity).
  split; [exact Hin |]. split; [exact Hrun |].
  exact (proj1 (density_in_unit_interval "bone" (PFloat 10) Hin) 1%float 1%float Hrun).
Defined.

(** ** Loading: the loop over the entries *)

Import PhantomScenario.

Lemma extend_nil (self : t) : extend self [] = self.
Proof. destruct self. unfold extend. cbn. by rewrite app_nil_r. Qed.

Lemma extend_append (self : t) (p : Phantom.t) (ps : list Phantom.t) :
  extend (append self p) ps = extend self (p :: ps).
Proof. unfold extend, append. cbn. by rewrite <- app_assoc. Qed.

Lemma read_entries_app (self : t) (i : nat) (pre rest : list pyval)
    (ps : list Phantom.t) (st : pstate) :
  constructs pre ps ->
  read_entries self i (pre ++ rest) st = read_entries (extend self ps) (i + length pre) rest st.
Proof.
  intros Hpre. revert self i.
  induction Hpre as [| e p pre ps He _ IH]; intros self i.
  - cbn. by rewrite extend_nil, Nat.add_0_r.
  - cbn [app read_entries]. rewrite He, IH, extend_append. cbn [length].
    by rewrite Nat.add_succ_r.
Qed.

Lemma read_entries_fatal (self : t) (i : nat) (p : pyval) (rest : list pyval)
    (e : exn) (st : pstate) :
  make_phantom p = Raise e ->
  read_entries self i (p :: rest) st = (SysExit None, printed st (failure_message (i + 1) e)).
Proof. intros He. cbn [read_entries]. rewrite He. by destruct e. Qed.

Lemma read_entries_done (self : t) (i : nat) (entries : list pyval)
    (ps : list Phantom.t) (st : pstate) :
  constructs entries ps ->
  read_entries self i entries st = (Return (extend self ps), st).
Proof.
  intros Hall. rewrite <- (app_nil_r entries), (read_entries_app _ _ _ _ _ _ Hall).
  reflexivity.
Qed.

Lemma Read_entries (w : world) (self : t) (entries : list pyval) :
  holds_entries w (configuration_file self) entries ->
  ReadPhantomsFromConfiguration w self
  = (self' ← read_entries self 0 entries; mret (self', None)).
Proof.
  intros (top & Hfile & Htop). unfold ReadPhantomsFromConfiguration.
  rewrite Hfile. cbn [py_contains py_getitem]. rewrite Htop.
  rewrite bool_decide_eq_true_2 by eauto. reflexivity.
Qed.

(** ** The batch: what ends it *)

Lemma proc_bind_Return {A B : Type} (m : proc A) (f : A -> proc B) (a : A)
    (st st' : pstate) :
  m st = (Return a, st') -> (m ≫= f) st = f a st'.
Proof. intros Hm. unfold mbind, proc_bind. by rewrite Hm. Qed.

Lemma proc_bind_SysExit {A B : Type} (m : proc A) (f : A -> proc B) (arg : option Z)
    (st st' : pstate) :
  m st = (SysExit arg, st') -> (m ≫= f) st = (SysExit arg, st').
Proof. intros Hm. unfold mbind, proc_bind. by rewrite Hm. Qed.

Lemma analyze_unfold (w : world) (fa : FolderAnalyzer.t) (file : string) :
  str_contains ".json" file = true ->
  FolderAnalyzer.analyze w fa file
  = ('(scene', _) ← ReadPhantomsFromConfiguration w (scene_of fa file);
     GenerateImage w scene').
Proof. intros Hjson. unfold FolderAnalyzer.analyze. by rewrite Hjson. Qed.

Lemma analyze_exit (w : world) (fa : FolderAnalyzer.t) (file : string)
    (arg : option Z) (st st' : pstate) :
  str_contains ".json" file = true ->
  ReadPhantomsFromConfiguration w (scene_of fa file) st = (SysExit arg, st') ->
  FolderAnalyzer.analyze w fa file st = (SysExit arg, st').
Proof.
  intros Hjson Hread. rewrite (analyze_unfold _ _ _ Hjson).
  by apply proc_bind_SysExit.
Qed.

Lemma analyze_all_next (w : world) (fa : FolderAnalyzer.t) (file : string)
    (later : list string) (st st' : pstate) :
  FolderAnalyzer.analyze w fa file st = (Return (), st') ->
  FolderAnalyzer.analyze_all w fa (file :: later) st = FolderAnalyzer.analyze_all w fa later st'.
Proof.
  intros Hfile. cbn [FolderAnalyzer.analyze_all].
  by rewrite (proc_bind_Return _ _ _ _ _ Hfile).
Qed.

Lemma analyze_all_app (w : world) (fa : FolderAnalyzer.t) (before later : list string)
    (st st' : pstate) :
  FolderAnalyzer.analyze_all w fa before st = (Return (), st') ->
  FolderAnalyzer.analyze_all w fa (before ++ later) st = FolderAnalyzer.analyze_all w fa later st'.
Proof.
  revert st. induction before as [| file before IH]; intros st; cbn [app].
  - cbn. by intros [= ->].
  - cbn [FolderAnalyzer.analyze_all]. unfold mbind, proc_bind.
    destruct (FolderAnalyzer.analyze w fa file st) as [[[] | arg | e] st1];
      [apply IH | discriminate | discriminate].
Qed.

Lemma analyze_all_exit (w : world) (fa : FolderAnalyzer.t) (file : string)
    (later : list string) (arg : option Z) (st st' : pstate) :
  FolderAnalyzer.analyze w fa file st = (SysExit arg, st') ->
  FolderAnalyzer.analyze_all w fa (file :: later) st = (SysExit arg, st').
Proof.
  intros Hfile. cbn [FolderAnalyzer.analyze_all]. unfold mbind, proc_bind.
  by rewrite Hfile.
Qed.

Lemma make_phantom_dict (m : gmap string pyval) :
  complete m ->
  exists name material xPos yPos zPos xDir yDir zDir radius zsize,
    m !! "name" = Some name /\ m !! "material" = Some material /\
    m !! "xPos" = Some xPos /\ m !! "yPos" = Some yPos /\ m !! "zPos" = Some zPos /\
    m !! "xDir" = Some xDir /\ m !! "yDir" = Some yDir /\ m !! "zDir" = Some zDir /\
    m !! "radius" = Some radius /\ m !! "zsize" = Some zsize /\
    make_phantom (PDict m)
    = Phantom.init name material xPos yPos zPos xDir yDir zDir radius zsize.
Proof.
  unfold complete, required_keys. cbn [forallb]. rewrite !andb_true_iff, !bool_decide_eq_true.
  intros ([name Hname] & [material Hmaterial] & [xPos HxPos] & [yPos HyPos] &
          [zPos HzPos] & [xDir HxDir] & [yDir HyDir] & [zDir HzDir] &
          [radius Hradius] & [zsize Hzsize] & _).
  exists name, material, xPos, yPos, zPos, xDir, yDir, zDir, radius, zsize.
  repeat (split; [assumption |]).
  unfold make_phantom, py_getitem.
  by rewrite Hname, Hmaterial, HxPos, HyPos, HzPos, HxDir, HyDir, HzDir, Hradius, Hzsize.
Qed.

(** ** A zero axial length *)

Lemma set_density_zero (material : string) (zsize : pyval) :
  material ∈ recognized -> zsize ∈ zero_lengths ->
  Phantom.set_density (PStr material) zsize = Raise ZeroDivisionError.
Proof.
  intros Hin Hz. unfold zero_lengths in Hz.
  repeat (apply elem_of_cons in Hz as [-> | Hz]);
    [| | | by apply elem_of_nil in Hz];
    revert material Hin; apply recognized_cases; vm_compute; reflexivity.
Qed.

(** C10: an entry with zsize = 0 and a recognized material makes the
    opacity normalization divide by zero; the constructor raises, the
    generic handler of the loading loop prints and calls [sys.exit()], and
    the batch ends there without an image for the file. *)
Theorem zero_length_is_fatal (w : world) (fa : FolderAnalyzer.t) (file : string)
    (later : list string) (st : pstate) (pre rest : list pyval) (ps : list Phantom.t)
    (m : gmap string pyval) (material : string) (zsize : pyval) :
  material ∈ recognized ->
  zsize ∈ zero_lengths ->
  complete m ->
  m !! "material" = Some (PStr material) ->
  m !! "zsize" = Some zsize ->
  constructs pre ps ->
  str_contains ".json" file = true ->
  holds_entries w (path_of fa file) (pre ++ PDict m :: rest) ->
  Phantom.set_density (PStr material) zsize = Raise ZeroDivisionError /\
  make_phantom (PDict m) = Raise ZeroDivisionError /\
  FolderAnalyzer.analyze_all w fa (file :: later) st
  = (SysExit None, printed st (MsgCreateError (length pre + 1) ZeroDivisionError)).
Proof.
  intros Hin Hz Hm Hmat Hzsize Hpre Hjson Hfile.
  pose proof (set_density_zero _ _ Hin Hz) as Hset.
  assert (make_phantom (PDict m) = Raise ZeroDivisionError) as Hmake.
  { destruct (make_phantom_dict m Hm)
      as (? & material' & ? & ? & ? & ? & ? & ? & ? & zsize' & _ & Hmat' & _ & _ & _ &
          _ & _ & _ & _ & Hzsize' & ->).
    rewrite Hmat in Hmat'. rewrite Hzsize in Hzsize'.
    injection Hmat' as <-. injection Hzsize' as <-.
    unfold Phantom.init. by rewrite Hset. }
  split; [exact Hset |]. split; [exact Hmake |].
  apply analyze_all_exit, analyze_exit; [exact Hjson |].
  rewrite (Read_entries w (scene_of fa file) _ Hfile).
  unfold mbind at 1, proc_bind.
  rewrite (read_entries_app _ _ _ _ _ _ Hpre).
  by rewrite (read_entries_fatal _ _ _ _ _ _ Hmake).
Qed.

Lemma zero_length_is_fatal_witness :
  let m := entry "bone" (PInt 0) (PInt 0) (PInt 5) (PInt 0) in
  let w := folder "." [("Configuration_1.json", JSON (configuration [PDict m]))] true in
  "bone" ∈ recognized /\
  PInt 0 ∈ zero_lengths /\
  Phantom.set_density (PStr "bone") (PInt 0) = Raise ZeroDivisionError /\
  make_phantom (PDict m) = Raise ZeroDivisionError /\
  FolderAnalyzer.analyze_all w (analyzer ".") ["Configuration_1.json"] (PState [] ∅)
  = (SysExit None, PState [MsgCreateError 1 ZeroDivisionError] ∅).
Proof.
  intros m w.
  assert ("bone" ∈ recognized) as Hin by (unfold recognized; repeat constructor).
  assert (PInt 0 ∈ zero_lengths) as Hz by (unfold zero_lengths; repeat constructor).
  split; [exact Hin |]. split; [exact Hz |].
  apply (zero_length_is_fatal w (analyzer ".") "Configuration_1.json" [] (PState [] ∅)
           [] [] [] m "bone" (PInt 0) Hin Hz).
  - vm_compute. reflexivity.
  - vm_compute. reflexivity.
  - vm_compute. reflexivity.
  - constructor.
  - reflexivity.
  - exists {["Phantoms" := PList [PDict m]]}. split; [reflexivity | vm_compute; reflexivity].
Defined.

(** ** The label *)

Section FirstRun.
Context {char : Type} (is_digit : char -> bool).

Lemma more_digits_run (s : list char) :
  exists post,
    s = Re.more_digits is_digit s ++ post /\
    Forall (fun c => is_digit c = true) (Re.more_digits is_digit s) /\
    (forall c, head post = Some c -> is_digit c = false).
Proof.
  induction s as [| c s (post & Hs & Hrun & Hstop)]; cbn [Re.more_digits].
  - exists []. split; [reflexivity |]. split; [constructor | discriminate].
  - destruct (is_digit c) eqn:Hc.
    + exists post. cbn [app]. split; [congruence |].
      split; [by constructor | exact Hstop].
    + exists (c :: s). split; [reflexivity |]. split; [constructor |].
      cbn. intros ? [= <-]. exact Hc.
Qed.

(** [search_digits] returns the first maximal run of digits: no digit
    before it, only digits in it, and no digit right after it. *)
Lemma search_digits_first_run (s group : list char) :
  Re.search_digits is_digit s = Some group ->
  exists pre post,
    s = pre ++ group ++ post /\
    Forall (fun c => is_digit c = false) pre /\
    group <> [] /\
    Forall (fun c => is_digit c = true) group /\
    (forall c, head post = Some c -> is_digit c = false).
Proof.
  induction s as [| c s IH]; cbn [Re.search_digits]; [discriminate |].
  destruct (is_digit c) eqn:Hc.
  - intros [= <-]. destruct (more_digits_run s) as (post & Hs & Hrun & Hstop).
    exists [], post. cbn [app]. split; [congruence |]. split; [constructor |].
    split; [discriminate |]. split; [by constructor | exact Hstop].
  - intros Hfound. destruct (IH Hfound) as (pre & post & -> & Hpre & Hne & Hrun & Hstop).
    exists (c :: pre), post. split; [reflexivity |]. split; [by constructor |]. tauto.
Qed.

Lemma search_digits_none (s : list char) :
  Re.search_digits is_digit s = None <-> Forall (fun c => is_digit c = false) s.
Proof.
  induction s as [| c s IH]; cbn [Re.search_digits].
  - split; [constructor | reflexivity].
  - destruct (is_digit c) eqn:Hc.
    + split; [discriminate |]. intros H. apply Forall_cons in H as [H _]. congruence.
    + rewrite IH. split; [by constructor |]. intros H. by apply Forall_cons in H as [_ H].
Qed.
End FirstRun.

(** C4: the string [makeAnalysis] hands to [extract_index] is
    [input_dir + '/' + file], so the first run of digits is looked for in
    the directory part too.  In the directory "run2" the files
    "Configuration_7.json" and "Configuration_8.json", whose own first runs
    of digits are "7" and "8", both get the label "2" and the same output
    file. *)
Theorem label_searches_the_path :
  let w := folder "run2" [("Configuration_7.json", NotJSON);
                          ("Configuration_8.json", NotJSON)] true in
  extract_index "Configuration_7.json" = inl "7" /\
  extract_index "Configuration_8.json" = inl "8" /\
  label (init (path_of (analyzer "run2") "Configuration_7.json") "./output" small) = inl "2" /\
  label (init (path_of (analyzer "run2") "Configuration_8.json") "./output" small) = inl "2" /\
  let done := FolderAnalyzer.makeAnalysis w (analyzer "run2") (PState [] ∅) in
  done.1 = Return () /\
  (map_to_list (files done.2)).*1 = ["./output/Phantoms_2.png"].
Proof.
  intros w. repeat (split; [reflexivity |]).
  split; vm_compute; reflexivity.
Qed.

(** ** Loading: failures of the file and failures of an entry *)

Lemma Read_file_failure (w : world) (self : t) (msg : message) (st : pstate) :
  file_failure w (configuration_file self) msg ->
  ReadPhantomsFromConfiguration w self st = (Return (self, Some []), printed st msg).
Proof.
  intros Hfail. unfold ReadPhantomsFromConfiguration.
  destruct Hfail as [Hfile | Hfile | data Hfile Hkey]; rewrite Hfile; [reflexivity .. |].
  rewrite Hkey. reflexivity.
Qed.

Lemma first_missing_spec (m : gmap string pyval) (key : string) :
  first_missing m = Some key -> key ∈ required_keys /\ m !! key = None.
Proof.
  unfold first_missing. intros Hfind. apply find_some in Hfind as [Hin Hnone].
  split; [by apply list_elem_of_In | by apply bool_decide_eq_true in Hnone].
Qed.

Lemma first_missing_exists (m : gmap string pyval) (key : string) :
  key ∈ required_keys -> m !! key = None -> exists key', first_missing m = Some key'.
Proof.
  intros Hin Hnone. unfold first_missing.
  destruct (List.find _ required_keys) as [key' |] eqn:Hfind; [eauto |].
  apply list_elem_of_In in Hin.
  pose proof (find_none _ _ Hfind key Hin) as Hdec. cbn in Hdec.
  by rewrite bool_decide_eq_true_2 in Hdec.
Qed.

Lemma make_phantom_missing (m : gmap string pyval) (key : string) :
  first_missing m = Some key -> make_phantom (PDict m) = Raise (KeyError key).
Proof.
  unfold first_missing, required_keys, make_phantom, py_getitem. cbn [List.find].
  repeat
    match goal with
    | |- context [bool_decide (m !! ?k = None)] =>
        destruct (m !! k);
        [rewrite bool_decide_eq_false_2 by discriminate; rewrite bind_Ok
        | rewrite bool_decide_eq_true_2 by reflexivity; intros [= <-]; reflexivity]
    end.
  discriminate.
Qed.

Lemma read_entries_outcome (self : t) (i : nat) (entries : list pyval) (st : pstate) :
  (exists ps,
     constructs entries ps /\
     read_entries self i entries st = (Return (extend self ps), st)) \/
  (exists pre ps p rest e,
     entries = pre ++ p :: rest /\ constructs pre ps /\ make_phantom p = Raise e /\
     read_entries self i entries st
     = (SysExit None, printed st (failure_message (i + length pre + 1) e))).
Proof.
  revert self i. induction entries as [| p entries IH]; intros self i.
  - left. exists []. split; [constructor |]. cbn. by rewrite extend_nil.
  - destruct (make_phantom p) as [phantom | e] eqn:Hp.
    + cbn [read_entries]. rewrite Hp.
      destruct (IH (append self phantom) (S i))
        as [(ps & Hps & ->) | (pre & ps & q & rest & e & -> & Hpre & Hq & ->)].
      * left. exists (phantom :: ps). split; [by constructor |].
        by rewrite extend_append.
      * right. exists (p :: pre), (phantom :: ps), q, rest, e.
        split; [reflexivity |]. split; [by constructor |]. split; [exact Hq |].
        cbn [length]. do 3 f_equal. lia.
    + right. exists [], [], p, entries, e.
      split; [reflexivity |]. split; [constructor |]. split; [exact Hp |].
      rewrite (read_entries_fatal _ _ _ _ _ _ Hp). cbn [length].
      by rewrite Nat.add_0_r.
Qed.

Lemma GenerateImage_saved (w : world) (self : t) (img : image) (st : pstate) :
  render w self = Ok img ->
  can_save w (output_path self) = true ->
  GenerateImage w self st = (Return (), written st (output_path self) img).
Proof.
  intros Hrender Hsave. unfold GenerateImage. rewrite Hrender.
  cbn [eval]. unfold mbind, proc_bind, save. by rewrite Hsave.
Qed.

Lemma GenerateImage_unwritable (w : world) (self : t) (img : image) (st : pstate) :
  render w self = Ok img ->
  can_save w (output_path self) = false ->
  GenerateImage w self st = (SysExit None, printed st MsgNoOutputDir).
Proof.
  intros Hrender Hsave. unfold GenerateImage. rewrite Hrender.
  cbn [eval]. unfold mbind, proc_bind, save. by rewrite Hsave.
Qed.

Lemma analyze_missing_key (w : world) (fa : FolderAnalyzer.t) (file : string)
    (later : list string) (st : pstate) (pre rest : list pyval) (ps : list Phantom.t)
    (m : gmap string pyval) (key : string) :
  str_contains ".json" file = true ->
  holds_entries w (path_of fa file) (pre ++ PDict m :: rest) ->
  constructs pre ps ->
  first_missing m = Some key ->
  FolderAnalyzer.analyze_all w fa (file :: later) st
  = (SysExit None, printed st (MsgMissingKey (length pre + 1) (KeyError key))).
Proof.
  intros Hjson Hfile Hpre Hkey.
  apply analyze_all_exit, analyze_exit; [exact Hjson |].
  rewrite (Read_entries w (scene_of fa file) _ Hfile).
  apply proc_bind_SysExit.
  rewrite (read_entries_app _ _ _ _ _ _ Hpre).
  by rewrite (read_entries_fatal _ _ _ _ _ _ (make_phantom_missing _ _ Hkey)).
Qed.



(** ** The exit status *)

Lemma plain_exit_bind {A B : Type} (m : proc A) (f : A -> proc B) (st : pstate) :
  plain_exit (m st).1 ->
  (forall a st', plain_exit (f a st').1) ->
  plain_exit ((m ≫= f) st).1.
Proof.
  intros Hm Hf. unfold mbind, proc_bind.
  destruct (m st) as [[a | arg | e] st']; [apply Hf | exact Hm | exact I].
Qed.

Lemma plain_exit_eval {A : Type} (r : result A) (st : pstate) : plain_exit (eval r st).1.
Proof. by destruct r. Qed.

Lemma plain_exit_read_entries (self : t) (i : nat) (entries : list pyval) (st : pstate) :
  plain_exit (read_entries self i entries st).1.
Proof.
  destruct (read_entries_outcome self i entries st)
    as [(ps & _ & ->) | (pre & ps & p & rest & e & _ & _ & _ & ->)]; exact I.
Qed.

Lemma plain_exit_Read (w : world) (self : t) (st : pstate) :
  plain_exit (ReadPhantomsFromConfiguration w self st).1.
Proof.
  unfold ReadPhantomsFromConfiguration.
  destruct (file_at w (configuration_file self)) as [| e | | data];
    [exact I | exact I | exact I |].
  apply plain_exit_bind; [apply plain_exit_eval |]. intros has_key st1.
  destruct has_key; cbn [negb]; [| exact I].
  apply plain_exit_bind; [apply plain_exit_eval |]. intros phantoms_data st2.
  apply plain_exit_bind; [apply plain_exit_eval |]. intros entries st3.
  apply plain_exit_bind; [apply plain_exit_read_entries |]. intros self' st4. exact I.
Qed.

Lemma plain_exit_GenerateImage (w : world) (self : t) (st : pstate) :
  plain_exit (GenerateImage w self st).1.
Proof.
  unfold GenerateImage.
  apply plain_exit_bind; [apply plain_exit_eval |]. intros img st1.
  unfold save. by destruct (can_save w (output_path self)).
Qed.

Lemma plain_exit_analyze_all (w : world) (fa : FolderAnalyzer.t) (conf_files : list string)
    (st : pstate) :
  plain_exit (FolderAnalyzer.analyze_all w fa conf_files st).1.
Proof.
  revert st. induction conf_files as [| file conf_files IH]; intros st; [exact I |].
  cbn [FolderAnalyzer.analyze_all].
  apply plain_exit_bind; [| intros _ st1; apply IH].
  unfold FolderAnalyzer.analyze.
  destruct (str_contains ".json" file); [| exact I].
  apply plain_exit_bind; [apply plain_exit_Read |]. intros [scene' returned] st1.
  apply plain_exit_GenerateImage.
Qed.

Lemma plain_exit_run (w : world) (inputDir outputDir : string) :
  plain_exit (run w inputDir outputDir).1.
Proof.
  unfold run, main, FolderAnalyzer.makeAnalysis.
  apply plain_exit_bind; [apply plain_exit_eval |]. intros conf_files st.
  apply plain_exit_analyze_all.
Qed.

Lemma run_listing (w : world) (inputDir outputDir : string) (conf_files : list string) :
  listdir w inputDir = Ok conf_files ->
  run w inputDir outputDir
  = FolderAnalyzer.analyze_all w (loader inputDir outputDir) conf_files (PState [] ∅).
Proof.
  intros Hlist. unfold run, main, FolderAnalyzer.makeAnalysis. cbn [FolderAnalyzer.input_dir].
  by rewrite Hlist.
Qed.

Lemma Read_keeps_files (w : world) (self : t) (st : pstate) :
  files (ReadPhantomsFromConfiguration w self st).2 = files st.
Proof.
  unfold ReadPhantomsFromConfiguration.
  destruct (file_at w (configuration_file self)) as [| e | | data];
    [reflexivity | reflexivity | reflexivity |].
  unfold mbind, proc_bind, eval.
  destruct (py_contains "Phantoms" data) as [[] |]; [| reflexivity | reflexivity].
  cbn [negb]. destruct (py_getitem data "Phantoms") as [phantoms_data |]; [| reflexivity].
  destruct (py_iter phantoms_data) as [entries |]; [| reflexivity].
  destruct (read_entries_outcome self 0 entries st)
    as [(ps & _ & ->) | (pre & ps & p & rest & e & _ & _ & _ & ->)]; reflexivity.
Qed.

(** C5, as stated, fails: a single configuration file whose only entry
    lacks "radius" ends the process through [sys.exit()], and the exit
    status is 0, not a non-zero one. *)
Lemma exit_status_counterexample :
  let m := delete "radius" (entry "bone" (PInt 0) (PInt 0) (PInt 5) (PInt 10)) in
  let w := folder "." [("Configuration_1.json", JSON (configuration [PDict m]))] true in
  first_missing m = Some "radius" /\
  run w "." "./output"
  = (SysExit None, PState [MsgMissingKey 1 (KeyError "radius")] ∅) /\
  exit_status (run w "." "./output").1 = 0%Z.
Proof.
  intros m w.
  assert (first_missing m = Some "radius") as Hfirst by (vm_compute; reflexivity).
  assert (run w "." "./output"
          = (SysExit None, PState [MsgMissingKey 1 (KeyError "radius")] ∅)) as Hrun.
  { rewrite (run_listing w "." "./output" ["Configuration_1.json"] eq_refl).
    apply (analyze_missing_key w (loader "." "./output") "Configuration_1.json" []
             (PState [] ∅) [] [] [] m "radius" eq_refl); [| constructor | exact Hfirst].
    exists {["Phantoms" := PList [PDict m]]}. split; [reflexivity | vm_compute; reflexivity]. }
  split; [exact Hfirst |]. split; [exact Hrun |]. by rewrite Hrun.
Qed.

(** C5 (amended): the exit status is 0 unless an exception goes uncaught.
    In particular the process ends early, with no file written for the
    current or any later configuration, when a phantom entry lacks a
    required key or the image cannot be saved, but it does so through
    [sys.exit()] without an argument, and its exit status is then 0 as it is
    when every file is processed. *)
Theorem exit_status_is_zero (w : world) (inputDir outputDir : string) :
  match (run w inputDir outputDir).1 with
  | Uncaught _ => exit_status (run w inputDir outputDir).1 = 1%Z
  | _ => exit_status (run w inputDir outputDir).1 = 0%Z
  end /\
  forall before file later st1,
    listdir w inputDir = Ok (before ++ file :: later) ->
    FolderAnalyzer.analyze_all w (loader inputDir outputDir) before (PState [] ∅)
    = (Return (), st1) ->
    str_contains ".json" file = true ->
    (exists pre ps m rest key,
       holds_entries w (path_of (loader inputDir outputDir) file) (pre ++ PDict m :: rest) /\
       constructs pre ps /\ first_missing m = Some key) \/
    (exists scene' returned st2 img,
       ReadPhantomsFromConfiguration w (scene_of (loader inputDir outputDir) file) st1
       = (Return (scene', returned), st2) /\
       render w scene' = Ok img /\ can_save w (output_path scene') = false) ->
    exists st',
      run w inputDir outputDir = (SysExit None, st') /\
      files st' = files st1 /\
      exit_status (run w inputDir outputDir).1 = 0%Z.
Proof.
  split.
  - pose proof (plain_exit_run w inputDir outputDir) as Hplain.
    destruct (run w inputDir outputDir).1 as [[] | [code |] | e]; by cbn in *.
  - intros before file later st1 Hlist Hbefore Hjson Hfatal.
    rewrite (run_listing _ _ _ _ Hlist), (analyze_all_app _ _ _ _ _ _ Hbefore).
    destruct Hfatal as [(pre & ps & m & rest & key & Hfile & Hpre & Hfirst)
                       | (scene' & returned & st2 & img & Hread & Hrender & Hsave)].
    + rewrite (analyze_missing_key _ _ _ later st1 _ _ _ _ _ Hjson Hfile Hpre Hfirst).
      eexists. split; [reflexivity |]. split; reflexivity.
    + rewrite (analyze_all_exit _ _ _ later None st1 (printed st2 MsgNoOutputDir)).
      * eexists. split; [reflexivity |]. split; [| reflexivity].
        pose proof (Read_keeps_files w (scene_of (loader inputDir outputDir) file) st1) as Hfiles.
        by rewrite Hread in Hfiles.
      * rewrite (analyze_unfold _ _ _ Hjson), (proc_bind_Return _ _ _ _ _ Hread).
        by apply (GenerateImage_unwritable _ _ img).
Qed.

Lemma exit_status_is_zero_witness :
  let m := delete "radius" (entry "bone" (PInt 0) (PInt 0) (PInt 5) (PInt 10)) in
  let w := folder "." [("Configuration_1.json", JSON (configuration [PDict m]))] true in
  listdir w "." = Ok ([] ++ "Configuration_1.json" :: []) /\
  exists st',
    run w "." "./output" = (SysExit None, st') /\
    files st' = ∅ /\
    exit_status (run w "." "./output").1 = 0%Z.
Proof.
  intros m w. split; [reflexivity |].
  apply (proj2 (exit_status_is_zero w "." "./output") [] "Configuration_1.json" [] (PState [] ∅));
    [reflexivity | reflexivity | reflexivity |].
  left. exists [], [], m, [], "radius".
  split; [| split; [constructor | vm_compute; reflexivity]].
  exists {["Phantoms" := PList [PDict m]]}. split; [reflexivity | vm_compute; reflexivity].
Defined.

(** ** The fill intensity *)

Lemma fill_of_float (p : Phantom.t) :
  fill_of p = float_trunc (255 - Phantom.opacity p * 255)%float.
Proof. reflexivity. Qed.

Lemma float_trunc_Q (f : float) (z : Z) :
  float_trunc f = Ok z -> z = Qtrunc (float_to_Q f).
Proof.
  unfold float_trunc, float_to_Q.
  destruct (Prim2SF f) as [s | s | | s m e]; [| discriminate | discriminate |].
  - intros [= <-]. reflexivity.
  - intros [= <-].
    assert (forall a : Z, (0 <= a)%Z ->
              (if s then - a else a)%Z
              = Qtrunc (if s then Qopp (inject_Z a) else inject_Z a)) as Hint.
    { intros a Ha. unfold Qtrunc. destruct s.
      - destruct (Qle_bool 0 (- inject_Z a)) eqn:Hle.
        + apply Qle_bool_iff in Hle. unfold Qle in Hle. cbn in Hle.
          assert (a = 0%Z) as -> by lia. reflexivity.
        + unfold Qceiling. rewrite Qopp_involutive, Qfloor_Z. reflexivity.
      - rewrite (proj2 (Qle_bool_iff 0 (inject_Z a))).
        + by rewrite Qfloor_Z.
        + unfold Qle. cbn. lia. }
    destruct e as [| k | k].
    + apply Hint. rewrite Z.shiftl_0_r. lia.
    + apply Hint. apply Z.shiftl_nonneg. lia.
    + rewrite Z.shiftr_div_pow2 by lia.
      unfold Qtrunc. destruct s.
      * destruct (Qle_bool 0 (- (Z.pos m # 2 ^ k))) eqn:Hle.
        -- apply Qle_bool_iff in Hle. unfold Qle in Hle. cbn in Hle. lia.
        -- unfold Qceiling. rewrite Qopp_involutive. cbn [Qfloor].
           by rewrite Pos2Z.inj_pow.
      * rewrite (proj2 (Qle_bool_iff 0 (Z.pos m # 2 ^ k))).
        -- cbn [Qfloor]. by rewrite Pos2Z.inj_pow.
        -- unfold Qle. cbn. lia.
Qed.

Lemma float_trunc_finite (f : float) :
  is_nan f = false -> is_infinity f = false -> exists z, float_trunc f = Ok z.
Proof.
  intros Hnan Hinf. unfold float_trunc, Prim2SF. rewrite Hnan, Hinf.
  destruct (is_zero f); [eauto |].
  destruct (FloatOps.Z.frexp f) as [r e].
  destruct (shr_fexp _ _ _ _ _) as [mrs e'].
  destruct (shr_m mrs); eauto.
Qed.

(** C2, as stated, fails: for a fat phantom the value 255 - opacity * 255
    is 131.526..., whose nearest integer is 132, and the fill intensity the
    program uses is 131. *)
Lemma fill_intensity_counterexample :
  exists p,
    Phantom.init (PStr "phantom") (PStr "fat") (PInt 0) (PInt 0) (PInt 0)
                 (PInt 0) (PInt 0) (PInt 1) (PInt 5) (PInt 10) = Ok p /\
    fill_of p = Ok 131%Z /\
    (1315 # 10 < float_to_Q (255 - Phantom.opacity p * 255)%float)%Q /\
    (float_to_Q (255 - Phantom.opacity p * 255)%float < 132 # 1)%Q.
Proof.
  eexists. split; [vm_compute; reflexivity |].
  split; [vm_compute; reflexivity |]. split; vm_compute; reflexivity.
Qed.

(** C2 (amended): for every phantom the fill intensity is
    int(255 - opacity * 255): the value 255 - opacity * 255, computed in
    binary64, with its fractional part dropped (truncation toward zero, not
    rounding to nearest).  Opacity 0 gives 255 and opacity 1 gives 0; the
    conversion fails only when the value is nan or infinite. *)
Theorem fill_intensity_truncates (p : Phantom.t) :
  let v := (255 - Phantom.opacity p * 255)%float in
  (forall fill, fill_of p = Ok fill -> fill = Qtrunc (float_to_Q v)) /\
  (is_nan v = false -> is_infinity v = false -> exists fill, fill_of p = Ok fill) /\
  (Phantom.opacity p = 0%float -> fill_of p = Ok 255%Z) /\
  (Phantom.opacity p = 1%float -> fill_of p = Ok 0%Z).
Proof.
  intros v. rewrite fill_of_float. fold v.
  split; [apply float_trunc_Q |]. split; [apply float_trunc_finite |].
  subst v. split; intros ->; vm_compute; reflexivity.
Qed.

Lemma fill_intensity_truncates_witness :
  let p := Phantom.Phantom (PStr "phantom") (PStr "bone") (PInt 0) (PInt 0) (PInt 0)
                           (PInt 0) (PInt 0) (PInt 1) (PInt 5) (PInt 10) 1 1 in
  Phantom.opacity p = 1%float /\ fill_of p = Ok 0%Z.
Proof.
  intros p. split; [reflexivity |].
  apply (fill_intensity_truncates p). reflexivity.
Defined.

(** ** The projection to pixels *)

Lemma project_formula (ps : Params) (p : Phantom.t) :
  project ps p
  = (c ← int_truediv (px ps) 2;
     x ← to_pixels ps (Phantom.xPos p);
     y ← to_pixels ps (Phantom.yPos p);
     r ← to_pixels ps (Phantom.radius p);
     Ok ((c + x)%float, (c + y)%float, r)).
Proof.
  unfold project, scale. fold (to_pixels ps). cbn [comprehension].
  destruct (int_truediv (px ps) 2) as [c |]; [| reflexivity]. rewrite !bind_Ok.
  destruct (to_pixels ps (Phantom.xPos p)) as [x |]; [| reflexivity]. rewrite !bind_Ok.
  destruct (to_pixels ps (Phantom.yPos p)) as [y |]; [| reflexivity]. rewrite !bind_Ok.
  destruct (to_pixels ps (Phantom.radius p)) as [r |]; reflexivity.
Qed.

(** C3: the centre of a phantom in pixels is
    (n/2 + xPos * n/size, n/2 + yPos * n/size) and its radius in pixels is
    radius * n/size; with xPos = 0, yPos = 0, radius = 5 in a field of 25
    cm on 512 pixels this is the centre (256, 256) and the radius 102.4. *)
Theorem pixel_projection (ps : Params) (p : Phantom.t) :
  project ps p
  = (c ← int_truediv (px ps) 2;
     x ← to_pixels ps (Phantom.xPos p);
     y ← to_pixels ps (Phantom.yPos p);
     r ← to_pixels ps (Phantom.radius p);
     Ok ((c + x)%float, (c + y)%float, r)) /\
  (Phantom.xPos p ∈ [PInt 0; PFloat 0] ->
   Phantom.yPos p ∈ [PInt 0; PFloat 0] ->
   Phantom.radius p ∈ [PInt 5; PFloat 5] ->
   project image_params p = Ok (256%float, 256%float, 102.4%float)).
Proof.
  split; [apply project_formula |].
  intros Hx Hy Hr. rewrite project_formula.
  repeat (apply elem_of_cons in Hx as [-> | Hx]); [| | by apply elem_of_nil in Hx];
    (repeat (apply elem_of_cons in Hy as [-> | Hy]); [| | by apply elem_of_nil in Hy]);
    (repeat (apply elem_of_cons in Hr as [-> | Hr]); [| | by apply elem_of_nil in Hr]);
    vm_compute; reflexivity.
Qed.

Lemma pixel_projection_witness :
  let p := Phantom.Phantom (PStr "phantom") (PStr "bone") (PInt 0) (PInt 0) (PInt 0)
                           (PInt 0) (PInt 0) (PInt 1) (PInt 5) (PInt 10) 1 1 in
  Phantom.radius p ∈ [PInt 5; PFloat 5] /\
  project image_params p = Ok (256%float, 256%float, 102.4%float).
Proof.
  intros p.
  assert (Phantom.radius p ∈ [PInt 5; PFloat 5]) as Hr by (cbn; repeat constructor).
  split; [exact Hr |].
  apply (pixel_projection image_params p); [cbn; repeat constructor .. | exact Hr].
Defined.

(** ** Drawing: order and occlusion *)

Lemma pixel_paint (img : image) (mask : Z -> Z -> bool) (ink : Z) (col row : nat) :
  pixel (paint img mask ink) col row
  = (fun v => if mask (Z.of_nat col) (Z.of_nat row) then ink else v) <$> pixel img col row.
Proof.
  unfold pixel, paint. rewrite list_lookup_imap.
  destruct (img !! row) as [line |]; [| reflexivity].
  cbn. by rewrite list_lookup_imap.
Qed.

Section Drawing.
Variables (w : world) (ps : Params) (c : float).
Hypothesis centre : int_truediv (px ps) 2 = Ok c.

Lemma draw_phantom_inv (img img' : image) (p : Phantom.t) :
  draw_phantom w ps c c img p = Ok img' ->
  exists circle fill ink mask,
    project ps p = Ok circle /\ fill_of p = Ok fill /\ draw_ink w fill = Ok ink /\
    ellipse w (px ps) (bounding_box circle) = Ok mask /\
    img' = paint img mask ink.
Proof.
  unfold draw_phantom, draw_ellipse, project. rewrite centre, !bind_Ok. intros Hdraw.
  apply bind_Ok_inv in Hdraw as (circle0 & -> & Hdraw). rewrite bind_Ok.
  apply bind_Ok_inv in Hdraw as (fill & Hfill & Hdraw).
  apply bind_Ok_inv in Hdraw as (circle & Hcircle & Hdraw).
  apply bind_Ok_inv in Hdraw as (ink & Hink & Hdraw).
  apply bind_Ok_inv in Hdraw as (mask & Hmask & [= <-]).
  exists circle, fill, ink, mask. tauto.
Qed.

Lemma draw_all_app (img : image) (l1 l2 : list Phantom.t) :
  draw_all w ps c c img (l1 ++ l2)
  = (img1 ← draw_all w ps c c img l1; draw_all w ps c c img1 l2).
Proof.
  revert img. induction l1 as [| p l1 IH]; intros img; [reflexivity |].
  cbn [app draw_all]. destruct (draw_phantom w ps c c img p) as [img' |]; [| reflexivity].
  rewrite !bind_Ok. apply IH.
Qed.

(** A pixel that none of the phantoms covers keeps its value. *)
Lemma draw_all_elsewhere (img img' : image) (l : list Phantom.t) (col row : nat) :
  draw_all w ps c c img l = Ok img' ->
  (forall p, p ∈ l -> ~ covers w ps p col row) ->
  pixel img' col row = pixel img col row.
Proof.
  revert img. induction l as [| p l IH]; intros img; cbn [draw_all].
  - by intros [= ->].
  - intros Hdraw Hfree.
    apply bind_Ok_inv in Hdraw as (img1 & Hp & Hdraw).
    rewrite (IH _ Hdraw) by (intros q Hq; apply Hfree; by right).
    apply draw_phantom_inv in Hp as (circle & fill & ink & mask & Hc & _ & _ & Hmask & ->).
    rewrite pixel_paint.
    destruct (mask (Z.of_nat col) (Z.of_nat row)) eqn:Hcov.
    + exfalso. apply (Hfree p); [by left |]. by exists circle, mask.
    + by destruct (pixel img col row).
Qed.

(** The last phantom that covers a pixel decides its value. *)
Lemma draw_all_last (img img' : image) (l1 l2 : list Phantom.t) (q : Phantom.t)
    (col row : nat) (v : Z) :
  draw_all w ps c c img (l1 ++ q :: l2) = Ok img' ->
  covers w ps q col row ->
  (forall p, p ∈ l2 -> ~ covers w ps p col row) ->
  pixel img' col row = Some v ->
  ink_of w q = Ok v.
Proof.
  rewrite draw_all_app. intros Hdraw (circle & mask & Hcircle & Hmask & Hcov) Hfree Hpixel.
  apply bind_Ok_inv in Hdraw as (img1 & _ & Hdraw). cbn [draw_all] in Hdraw.
  apply bind_Ok_inv in Hdraw as (img2 & Hq & Hdraw).
  rewrite (draw_all_elsewhere _ _ _ _ _ Hdraw Hfree) in Hpixel.
  apply draw_phantom_inv in Hq
    as (circle' & fill & ink & mask' & Hcircle' & Hfill & Hink & Hmask' & ->).
  rewrite Hcircle in Hcircle'. injection Hcircle' as <-.
  rewrite Hmask in Hmask'. injection Hmask' as <-.
  rewrite pixel_paint, Hcov in Hpixel.
  unfold ink_of. rewrite Hfill, bind_Ok, Hink.
  destruct (pixel img1 col row); [| discriminate]. by injection Hpixel as <-.
Qed.
End Drawing.



(** ** The fields rendering never reads *)

Ltac not_unused :=
  let H := fresh in
  intros H; unfold unused_keys in H;
  repeat (apply elem_of_cons in H as [H | H]; [discriminate |]);
  by apply elem_of_nil in H.

Ltac is_unused := unfold unused_keys; repeat constructor.

Lemma make_phantom_unused (e e' : pyval) :
  differ_only_unused e e' ->
  match make_phantom e, make_phantom e' with
  | Ok p, Ok p' => same_but_unused p p'
  | Raise a, Raise b => a = b
  | _, _ => False
  end.
Proof.
  intros (m & m' & -> & -> & Hused & Hunused).
  unfold make_phantom, py_getitem.
  rewrite <- (Hused "name"), <- (Hused "material"), <- (Hused "xPos"), <- (Hused "yPos"),
    <- (Hused "radius"), <- (Hused "zsize") by not_unused.
  pose proof (Hunused "zPos" ltac:(is_unused)) as HzPos.
  pose proof (Hunused "xDir" ltac:(is_unused)) as HxDir.
  pose proof (Hunused "yDir" ltac:(is_unused)) as HyDir.
  pose proof (Hunused "zDir" ltac:(is_unused)) as HzDir.
  destruct (m !! "name") as [name |]; [| reflexivity].
  destruct (m !! "material") as [material |]; [| reflexivity].
  destruct (m !! "xPos") as [xPos |]; [| reflexivity].
  destruct (m !! "yPos") as [yPos |]; [| reflexivity].
  rewrite !bind_Ok.
  destruct (m !! "zPos") as [zPos |], (m' !! "zPos") as [zPos' |];
    [| by destruct HzPos as [[? [=]] _] | by destruct HzPos as [_ [? [=]]] | reflexivity].
  destruct (m !! "xDir") as [xDir |], (m' !! "xDir") as [xDir' |];
    [| by destruct HxDir as [[? [=]] _] | by destruct HxDir as [_ [? [=]]] | reflexivity].
  destruct (m !! "yDir") as [yDir |], (m' !! "yDir") as [yDir' |];
    [| by destruct HyDir as [[? [=]] _] | by destruct HyDir as [_ [? [=]]] | reflexivity].
  destruct (m !! "zDir") as [zDir |], (m' !! "zDir") as [zDir' |];
    [| by destruct HzDir as [[? [=]] _] | by destruct HzDir as [_ [? [=]]] | reflexivity].
  rewrite !bind_Ok.
  destruct (m !! "radius") as [radius |]; [| reflexivity].
  destruct (m !! "zsize") as [zsize |]; [| reflexivity].
  rewrite !bind_Ok. unfold Phantom.init.
  destruct (Phantom.set_density material zsize) as [[d o] |]; [| reflexivity].
  rewrite !bind_Ok. unfold same_but_unused. cbn. tauto.
Qed.

Lemma same_scene_append (s s' : t) (p p' : Phantom.t) :
  same_scene s s' -> same_but_unused p p' -> same_scene (append s p) (append s' p').
Proof.
  intros (Hfile & Hout & Hlabel & Hparams & Hphantoms) Hp.
  unfold same_scene, append. cbn. repeat (split; [assumption |]).
  apply Forall2_app; [assumption |]. by constructor.
Qed.

(** Loading ends the same way, with the same lines printed, and leaves
    scenes that differ only in the unused fields. *)
Lemma read_entries_unused (s s' : t) (i : nat) (es es' : list pyval) (st : pstate) :
  same_scene s s' ->
  Forall2 differ_only_unused es es' ->
  match read_entries s i es st, read_entries s' i es' st with
  | (Return a, st1), (Return b, st2) => same_scene a b /\ st1 = st2
  | (SysExit x, st1), (SysExit y, st2) => x = y /\ st1 = st2
  | _, _ => False
  end.
Proof.
  intros Hscene Hes. revert s s' i Hscene.
  induction Hes as [| e e' es es' He _ IH]; intros s s' i Hscene.
  - cbn. by split.
  - cbn [read_entries]. pose proof (make_phantom_unused e e' He) as Hmake.
    destruct (make_phantom e) as [p | a], (make_phantom e') as [p' | b];
      [| contradiction | contradiction |].
    + apply IH. by apply same_scene_append.
    + subst b. destruct a; by split.
Qed.

Lemma draw_phantom_unused (w : world) (ps : Params) (c : float) (img : image)
    (p p' : Phantom.t) :
  same_but_unused p p' ->
  draw_phantom w ps c c img p = draw_phantom w ps c c img p'.
Proof.
  intros (_ & _ & Hx & Hy & Hr & _ & _ & Ho).
  unfold draw_phantom, scale, fill_of. by rewrite Hx, Hy, Hr, Ho.
Qed.

Lemma draw_all_unused (w : world) (ps : Params) (c : float) (img : image)
    (l l' : list Phantom.t) :
  Forall2 same_but_unused l l' ->
  draw_all w ps c c img l = draw_all w ps c c img l'.
Proof.
  intros Hl. revert img. induction Hl as [| p p' l l' Hp _ IH]; intros img; [reflexivity |].
  cbn [draw_all]. rewrite (draw_phantom_unused _ _ _ _ _ _ Hp).
  destruct (draw_phantom w ps c c img p') as [img' |]; [| reflexivity].
  rewrite !bind_Ok. apply IH.
Qed.

Lemma render_unused (w : world) (s s' : t) :
  same_scene s s' -> render w s = render w s'.
Proof.
  intros (_ & _ & _ & Hparams & Hphantoms). unfold render. rewrite <- Hparams.
  destruct (int_truediv (px (params s)) 2) as [c |]; [| reflexivity]. rewrite !bind_Ok.
  destruct (Image_new (px (params s))) as [img |]; [| reflexivity]. rewrite !bind_Ok.
  by apply draw_all_unused.
Qed.

Lemma GenerateImage_unused (w : world) (s s' : t) :
  same_scene s s' -> GenerateImage w s = GenerateImage w s'.
Proof.
  intros Hscene. unfold GenerateImage, output_path.
  rewrite (render_unused w s s' Hscene).
  destruct Hscene as (_ & Hout & Hlabel & _ & _). by rewrite Hout, Hlabel.
Qed.

(** C9: the rendered image does not depend on zPos or on the direction
    vector.  Two scenes whose phantoms differ only in those fields render
    the same image and write the same file, and two lists of entries that
    differ only in the values under those keys load, draw and save with the
    same result: same outcome, same lines printed, same files with the same
    pixels. *)
Theorem unused_fields_do_not_change_the_image (w : world) :
  (forall s s' st,
     same_scene s s' ->
     render w s = render w s' /\ GenerateImage w s st = GenerateImage w s' st) /\
  (forall self es es' st,
     Forall2 differ_only_unused es es' ->
     (loaded ← read_entries self 0 es; GenerateImage w loaded) st
     = (loaded ← read_entries self 0 es'; GenerateImage w loaded) st).
Proof.
  split.
  - intros s s' st Hscene. split; [by apply render_unused |].
    by rewrite (GenerateImage_unused w s s' Hscene).
  - intros self es es' st Hes.
    assert (same_scene self self) as Hself.
    { unfold same_scene. repeat (split; [reflexivity |]).
      apply Forall_Forall2_diag, Forall_forall. intros p _. unfold same_but_unused. tauto. }
    pose proof (read_entries_unused self self 0 es es' st Hself Hes) as Hread.
    unfold mbind, proc_bind.
    destruct (read_entries self 0 es st) as [[a | x | e1] st1],
             (read_entries self 0 es' st) as [[b | y | e2] st2]; try contradiction.
    + destruct Hread as [Hscene ->]. by rewrite (GenerateImage_unused w a b Hscene).
    + by destruct Hread as [-> ->].
Qed.

Lemma unused_fields_do_not_change_the_image_witness :
  let m := entry "fat" (PInt 0) (PInt 0) (PInt 5) (PInt 10) in
  let m' := <["zPos" := PFloat 7]> (<["xDir" := PInt 1]> m) in
  differ_only_unused (PDict m) (PDict m') /\
  (loaded ← read_entries overlapping 0 [PDict m]; GenerateImage empty_folder loaded)
    (PState [] ∅)
  = (loaded ← read_entries overlapping 0 [PDict m']; GenerateImage empty_folder loaded)
      (PState [] ∅).
Proof.
  intros m m'.
  assert (differ_only_unused (PDict m) (PDict m')) as Hdiffer.
  { exists m, m'. split; [reflexivity |]. split; [reflexivity |]. split.
    - intros key Hkey. subst m'.
      rewrite !lookup_insert_ne; [reflexivity | |];
        intros <-; apply Hkey; unfold unused_keys; repeat constructor.
    - intros key Hkey. unfold unused_keys in Hkey.
      repeat (apply elem_of_cons in Hkey as [-> | Hkey]);
        [| | | | by apply elem_of_nil in Hkey];
        split; intros _; vm_compute; eauto. }
  split; [exact Hdiffer |].
  apply (proj2 (unused_fields_do_not_change_the_image empty_folder)).
  constructor; [exact Hdiffer | constructor].
Defined.

(** ** Further properties of the density model *)

Lemma matching_unrecognized (material : pyval) :
  unrecognized material -> Phantom.matching material recognized = [].
Proof.
  unfold unrecognized, recognized. intros H.
  apply Forall_cons in H as [H1 H]. apply Forall_cons in H as [H2 H].
  apply Forall_cons in H as [H3 H]. apply Forall_cons in H as [H4 _].
  unfold Phantom.matching. cbn [imap]. unfold filter. cbn -[eq_str].
  by rewrite H1, H2, H3, H4.
Qed.

(** X1: a material that is none of 'lung', 'brain', 'fat', 'bone'
    (compared exactly, so 'Bone' is none of them) never yields a phantom:
    with a length that is a number the constructor raises IndexError. *)
Theorem unknown_material_raises (material zsize : pyval) :
  unrecognized material ->
  (forall d o, Phantom.set_density (F := float) material zsize <> Ok (d, o)) /\
  (forall n f, as_num zsize = Some n -> to_float n = Ok f ->
     Phantom.set_density (F := float) material zsize = Raise IndexError).
Proof.
  intros Hun. pose proof (matching_unrecognized material Hun) as Hmatch. split.
  - intros d o Hrun. apply set_density_inv in Hrun as (? & index & ? & ? & ? & ? & _ & Hindex & _).
    rewrite Hmatch in Hindex. discriminate.
  - intros n f Hn Hf. unfold Phantom.set_density. fold recognized.
    cbn [comprehension rmul float_real].
    rewrite !(float_mul_number _ _ _ _ Hn Hf), !bind_Ok. by rewrite Hmatch.
Qed.

Lemma unknown_material_raises_witness :
  unrecognized (PStr "Bone") /\
  Phantom.set_density (F := float) (PStr "Bone") (PInt 10) = Raise IndexError.
Proof.
  assert (unrecognized (PStr "Bone")) as Hun
    by (unfold unrecognized, recognized; repeat constructor).
  split; [exact Hun |].
  apply (proj2 (unknown_material_raises (PStr "Bone") (PInt 10) Hun) (NInt 10) 10%float);
    reflexivity.
Defined.

(** X2: a length that is not a number (a string, null, a list, an object)
    raises TypeError, whatever the material: the areal densities are
    computed before the material is looked up. *)
Theorem non_numeric_length_raises (material zsize : pyval) :
  as_num zsize = None ->
  Phantom.set_density (F := float) material zsize = Raise TypeError.
Proof.
  intros Hn.
  assert (forall d, float_mul d zsize = Raise TypeError) as Hmul
    by (intros d; unfold float_mul; by rewrite Hn).
  unfold Phantom.set_density. cbn [comprehension rmul float_real].
  rewrite !Hmul. reflexivity.
Qed.

Lemma non_numeric_length_raises_witness :
  as_num (PStr "10") = None /\
  Phantom.set_density (F := float) (PStr "Bone") (PStr "10") = Raise TypeError.
Proof.
  split; [reflexivity |]. apply (non_numeric_length_raises (PStr "Bone") (PStr "10")).
  reflexivity.
Defined.

Lemma Qle_bool_scale_neg (z a b : Q) :
  (z < 0)%Q -> Qle_bool (a * z) (b * z) = Qle_bool b a.
Proof.
  intros Hz. apply eq_true_iff_eq. rewrite !Qle_bool_iff.
  assert (0 < - z)%Q as Hpos by lra.
  split; intros H.
  - apply (Qmult_le_r _ _ _ Hpos). lra.
  - apply (Qmult_le_r _ _ _ Hpos) in H. lra.
Qed.

Lemma Q_truediv_scale_nonzero (z a b : Q) :
  ~ (z == 0)%Q -> Qeq_bool b 0 = false ->
  exists q, Q_truediv (a * z) (b * z) = Ok q /\ (q == a / b)%Q.
Proof.
  intros Hz Hb. unfold Q_truediv.
  assert (Hb' : ~ (b == 0)%Q) by (intros H%Qeq_bool_iff; congruence).
  destruct (Qeq_bool (b * z) 0) eqn:E.
  - apply Qeq_bool_iff in E. apply Qmult_integral in E as [E | E]; contradiction.
  - eexists; split; [reflexivity |]. by field.
Qed.

Lemma negative_lengths_checked :
  forallb (fun n => forallb (fun m => saturated m (PInt n)) recognized)
          (seqZ (-1000) 1000) = true.
Proof. vm_compute. reflexivity. Qed.

(** X3: a negative axial length is not rejected.  The largest of the four
    negative areal densities is then the one of lung, so in exact
    arithmetic the opacity is the density ratio to lung, 475/74 times the
    normalized density, and never below 1; on binary64, for every integer
    length from -1000 to -1, the phantom is constructed with an opacity of
    at least 1 and a fill intensity of at most 0. *)
Theorem negative_length_saturates (material : string) :
  material ∈ recognized ->
  (forall zsize : Q, (zsize < 0)%Q ->
     exists d o, Phantom.set_density (F := Q) (PStr material) zsize = Ok (d, o) /\
                 (o == d * (475 # 74))%Q /\ (1 <= o)%Q) /\
  (forall n : Z, (-1000 <= n <= -1)%Z ->
     exists d o fill,
       Phantom.set_density (F := float) (PStr material) (PInt n) = Ok (d, o) /\
       PrimFloat.leb 1 o = true /\
       float_trunc (255 - o * 255)%float = Ok fill /\ (fill <= 0)%Z).
Proof.
  intros Hin. split.
  - intros zsize Hz.
    assert (exists index d,
              Phantom.subscript (Phantom.matching (PStr material) recognized) 0 = Ok index /\
              Phantom.subscript [decimal 296 3; decimal 104 2; decimal 92 2; decimal 190 2]
                index = Ok d /\ (296 # 1000 <= d)%Q)
      as (index & d & Hindex & Hd & Hge).
    { revert material Hin. apply recognized_cases; eexists _, _;
        (split; [reflexivity |]); (split; [reflexivity | vm_compute; discriminate]). }
    unfold Phantom.set_density. cbn [rmul exact_real].
    rewrite (comprehension_total (fun d => d * zsize)%Q), bind_Ok.
    fold recognized. rewrite Hindex, bind_Ok, Hd, bind_Ok.
    rewrite (subscript_fmap _ _ _ _ Hd).
    assert (py_max rgt [decimal 296 3; decimal 104 2; decimal 92 2; decimal 190 2]
            = Ok (decimal (F := Q) 190 2)) as -> by reflexivity.
    rewrite bind_Ok. cbn [rdiv exact_real].
    assert (Q_truediv d (decimal 190 2) = Ok (d / decimal 190 2)%Q) as -> by reflexivity.
    rewrite !bind_Ok.
    assert (py_max rgt ((fun d => d * zsize)%Q <$>
                          [decimal 296 3; decimal 104 2; decimal 92 2; decimal 190 2])
            = Ok (decimal (F := Q) 296 3 * zsize)%Q) as ->.
    { cbn [fmap list_fmap py_max fold_left rgt exact_real].
      rewrite (Qle_bool_scale_neg zsize (decimal 104 2) (decimal 296 3) Hz).
      change (Qle_bool (decimal 296 3) (decimal 104 2)) with true. cbn [negb].
      rewrite (Qle_bool_scale_neg zsize (decimal 92 2) (decimal 296 3) Hz).
      change (Qle_bool (decimal 296 3) (decimal 92 2)) with true. cbn [negb].
      rewrite (Qle_bool_scale_neg zsize (decimal 190 2) (decimal 296 3) Hz).
      reflexivity. }
    rewrite bind_Ok.
    destruct (Q_truediv_scale_nonzero zsize d (decimal 296 3)) as (q & -> & Hq);
      [lra | reflexivity |].
    rewrite bind_Ok. eexists _, _. split; [reflexivity |].
    rewrite Hq. change (decimal (F := Q) 190 2) with (190 # 100)%Q.
    change (decimal (F := Q) 296 3) with (296 # 1000)%Q.
    split; [field |].
    apply Qle_shift_div_l; lra.
  - intros n Hn.
    pose proof (forallb_seqZ _ _ _ n negative_lengths_checked ltac:(lia)) as Hall.
    pose proof (forallb_recognized _ _ Hall Hin) as Hsat.
    unfold saturated in Hsat.
    destruct (Phantom.set_density _ _) as [[d o] |]; [| discriminate].
    apply andb_prop in Hsat as [Ho Hfill].
    destruct (float_trunc _) as [fill |] eqn:Hint; [| discriminate].
    exists d, o, fill. split; [reflexivity |]. split; [exact Ho |].
    split; [exact Hint |]. by apply Z.leb_le.
Qed.

Lemma negative_length_saturates_witness :
  "bone" ∈ recognized /\
  exists d o, Phantom.set_density (F := Q) (PStr "bone") (- 1 # 1) = Ok (d, o) /\
              (o == d * (475 # 74))%Q /\ (1 <= o)%Q.
Proof.
  assert ("bone" ∈ recognized) as Hin by (unfold recognized; repeat constructor).
  split; [exact Hin |].
  apply (proj1 (negative_length_saturates "bone" Hin)). reflexivity.
Defined.

(** ** Further properties of the label and of the choice of files *)

Lemma decode_one_length (s : list ascii) : (1 <= (Str.decode_one s).2 <= 4)%nat.
Proof. unfold Str.decode_one. repeat case_match; cbn [snd]; lia. Qed.

Lemma decode_bytes (fuel : nat) (s : list ascii) :
  (length s <= fuel)%nat -> concat (Str.bytes <$> Str.decode fuel s) = s.
Proof.
  revert s. induction fuel as [| fuel IH]; intros s Hlen.
  - destruct s; [reflexivity | cbn in Hlen; lia].
  - destruct s as [| c s]; [reflexivity |]. cbn [Str.decode].
    pose proof (decode_one_length (c :: s)) as Hk.
    destruct (Str.decode_one (c :: s)) as [cp k]. cbn [snd] in Hk.
    rewrite fmap_cons. cbn [concat Str.bytes]. rewrite IH.
    + apply take_drop.
    + rewrite length_drop. cbn [length] in *. lia.
Qed.

Lemma decode_nonempty (fuel : nat) (s : list ascii) :
  Forall (fun c => Str.bytes c <> []) (Str.decode fuel s).
Proof.
  revert s. induction fuel as [| fuel IH]; intros s; [constructor |].
  destruct s as [| c s]; [constructor |]. cbn [Str.decode].
  pose proof (decode_one_length (c :: s)) as Hk.
  destruct (Str.decode_one (c :: s)) as [cp k]. cbn [snd] in Hk.
  constructor; [| apply IH]. cbn [Str.bytes].
  destruct k as [| k]; [lia | discriminate].
Qed.

Lemma length_list_ascii (s : string) : length (list_ascii_of_string s) = String.length s.
Proof. induction s as [| c s IH]; [reflexivity | cbn; by rewrite IH]. Qed.

(** Decoding loses nothing: the characters of a name hold its bytes. *)
Lemma text_characters (s : string) : Str.text (Str.characters s) = s.
Proof.
  unfold Str.text, Str.characters. rewrite decode_bytes.
  - apply string_of_list_ascii_of_string.
  - by rewrite length_list_ascii.
Qed.

Lemma string_of_list_ascii_app (l1 l2 : list ascii) :
  string_of_list_ascii (l1 ++ l2) = string_of_list_ascii l1 +:+ string_of_list_ascii l2.
Proof. induction l1 as [| c l1 IH]; [reflexivity | cbn; by rewrite IH]. Qed.

Lemma text_app (l1 l2 : list Str.char) : Str.text (l1 ++ l2) = Str.text l1 +:+ Str.text l2.
Proof. unfold Str.text. by rewrite fmap_app, concat_app, string_of_list_ascii_app. Qed.

Lemma ascii_digits_checked :
  forallb (fun b => bool_decide (Re.unicode_digit (Str.Char b []) = Str.between 48 b 57))
          (seqZ 0 128) = true.
Proof. vm_compute. reflexivity. Qed.


Lemma prefix_append (a b : string) :
  String.prefix a b = true <-> exists post, b = a +:+ post.
Proof.
  revert b. induction a as [| c a IH]; intros b.
  - split; [intros _; by exists b | by destruct b].
  - destruct b as [| c' b]; cbn [String.prefix];
      [split; [discriminate | intros [post [=]]] |].
    destruct (Ascii.ascii_dec c c') as [<- | Hne].
    + rewrite IH. split; intros [post Hpost]; exists post.
      * cbn. by rewrite Hpost.
      * cbn in Hpost. by injection Hpost.
    + split; [discriminate |]. intros [post Hpost]. cbn in Hpost.
      injection Hpost as Hc _. by destruct Hne.
Qed.

Lemma str_contains_append (needle haystack : string) :
  str_contains needle haystack = true <->
  exists pre post, haystack = pre +:+ needle +:+ post.
Proof.
  induction haystack as [| c rest IH].
  - cbn [str_contains]. rewrite orb_false_r, prefix_append. split.
    + intros [post Hpost]. by exists "", post.
    + intros (pre & post & Hpost). destruct pre as [| c pre]; [| discriminate].
      by exists post.
  - cbn [str_contains]. rewrite orb_true_iff, prefix_append, IH. split.
    + intros [[post Hpost] | (pre & post & Hpost)].
      * by exists "", post.
      * exists (String c pre), post. cbn. by rewrite Hpost.
    + intros (pre & post & Hpost). destruct pre as [| c' pre].
      * left. by exists post.
      * right. cbn in Hpost. injection Hpost as _ Hrest. by exists pre, post.
Qed.

Lemma analyze_skips (w : world) (fa : FolderAnalyzer.t) (file : string) (st : pstate) :
  str_contains ".json" file = false -> FolderAnalyzer.analyze w fa file st = (Return (), st).
Proof. intros Hno. unfold FolderAnalyzer.analyze. by rewrite Hno. Qed.

(** X5: the batch handles exactly the listed names that contain ".json"
    somewhere (not only at the end), in the order of the listing; the
    other names change nothing: it runs as on the listing with them
    removed. *)
Theorem only_json_names_are_processed (w : world) (fa : FolderAnalyzer.t)
    (conf_files : list string) (st : pstate) :
  FolderAnalyzer.analyze_all w fa conf_files st
  = FolderAnalyzer.analyze_all w fa
      (filter (fun file => str_contains ".json" file = true) conf_files) st /\
  forall file,
    file ∈ filter (fun file => str_contains ".json" file = true) conf_files <->
    file ∈ conf_files /\ exists pre post, file = pre +:+ ".json" +:+ post.
Proof.
  split.
  - revert st. induction conf_files as [| file conf_files IH]; intros st; [reflexivity |].
    destruct (str_contains ".json" file) eqn:Hjson.
    + rewrite filter_cons_True by exact Hjson. cbn [FolderAnalyzer.analyze_all].
      unfold mbind, proc_bind.
      destruct (FolderAnalyzer.analyze w fa file st) as [[[] | arg | e] st1];
        [apply IH | reflexivity | reflexivity].
    + rewrite filter_cons_False by congruence. cbn [FolderAnalyzer.analyze_all].
      unfold mbind, proc_bind. rewrite (analyze_skips _ _ _ _ Hjson). apply IH.
  - intros file. rewrite list_elem_of_filter, str_contains_append. tauto.
Qed.

(** ** Further properties of loading *)

Lemma float_mul_cases (zsize : pyval) :
  (exists f, forall d, float_mul d zsize = Ok (d * f)%float) \/
  (forall d, float_mul d zsize = Raise TypeError) \/
  (forall d, float_mul d zsize = Raise OverflowError).
Proof.
  unfold float_mul. destruct (as_num zsize) as [[z | f] |].
  - cbn [to_float]. unfold float_of_int.
    destruct (is_infinity _); [right; right | left; eexists]; reflexivity.
  - left. by exists f.
  - right. by left.
Qed.

Lemma subscript_raises {A : Type} (l : list A) (i : nat) (e : exn) :
  Phantom.subscript l i = Raise e -> e = IndexError.
Proof. unfold Phantom.subscript. destruct (l !! i); [discriminate | congruence]. Qed.

Lemma float_truediv_raises (a b : float) (e : exn) :
  float_truediv a b = Raise e -> e = ZeroDivisionError.
Proof. unfold float_truediv. destruct (PrimFloat.eqb b 0); [congruence | discriminate]. Qed.

Ltac head_result H :=
  match goal with
  | |- (?r ≫= _) = Raise _ -> _ => destruct r eqn:H; [rewrite !bind_Ok |]
  end.

Lemma set_density_raises (material zsize : pyval) (e : exn) :
  Phantom.set_density (F := float) material zsize = Raise e -> e ∈ constructor_errors.
Proof.
  unfold Phantom.set_density, constructor_errors.
  cbn [comprehension rmul rdiv rgt float_real py_max fold_left].
  destruct (float_mul_cases zsize) as [[f Hmul] | [Hmul | Hmul]]; rewrite !Hmul;
    [| intros [= <-]; repeat constructor ..].
  rewrite !bind_Ok.
  head_result Hindex.
  2:{ intros [= <-]. apply subscript_raises in Hindex as ->. repeat constructor. }
  head_result Hdi.
  2:{ intros [= <-]. apply subscript_raises in Hdi as ->. repeat constructor. }
  head_result Hd.
  2:{ intros [= <-]. apply float_truediv_raises in Hd as ->. repeat constructor. }
  head_result Hoi.
  2:{ intros [= <-]. apply subscript_raises in Hoi as ->. repeat constructor. }
  cbn [py_max]. rewrite bind_Ok.
  head_result Ho; [discriminate |].
  intros [= <-]. apply float_truediv_raises in Ho as ->. repeat constructor.
Qed.

Lemma first_missing_none (m : gmap string pyval) : first_missing m = None -> complete m.
Proof.
  unfold first_missing, complete. intros Hnone.
  apply forallb_forall. intros key Hkey.
  pose proof (find_none _ _ Hnone key Hkey) as Hdec. cbn in Hdec.
  apply bool_decide_eq_true. apply bool_decide_eq_false in Hdec.
  by destruct (m !! key).
Qed.

Lemma make_phantom_raises (p : pyval) (e : exn) :
  make_phantom p = Raise e ->
  (exists m key, p = PDict m /\ first_missing m = Some key /\ e = KeyError key) \/
  e ∈ constructor_errors.
Proof.
  intros Hraise.
  assert (forall v, (forall m, v <> PDict m) -> make_phantom v = Raise TypeError) as Hother.
  { intros v Hv. destruct v; try reflexivity. by destruct (Hv d). }
  destruct p as [| b | z | f | s | l | m];
    try (rewrite Hother in Hraise by discriminate; injection Hraise as <-;
         right; unfold constructor_errors; repeat constructor).
  destruct (first_missing m) as [key |] eqn:Hfirst.
  - left. exists m, key. rewrite (make_phantom_missing _ _ Hfirst) in Hraise.
    injection Hraise as <-. tauto.
  - right. destruct (make_phantom_dict m (first_missing_none m Hfirst))
      as (? & ? & ? & ? & ? & ? & ? & ? & ? & ? & _ & _ & _ & _ & _ & _ & _ & _ & _ & _ & Hinit).
    rewrite Hinit in Hraise. unfold Phantom.init in Hraise.
    destruct (Phantom.set_density _ _) as [[d o] |] eqn:Hset; [discriminate |].
    injection Hraise as <-. by eapply set_density_raises.
Qed.

(** X6: how the construction of a phantom from an entry can fail.  An
    object raises KeyError exactly when it lacks a required key, and the
    key named is the first one missing in the order name, material, xPos,
    yPos, zPos, xDir, yDir, zDir, radius, zsize; an entry that is not an
    object raises TypeError; and every other failure is a TypeError, an
    OverflowError, an IndexError or a ZeroDivisionError. *)
Theorem entry_errors :
  (forall m key, make_phantom (PDict m) = Raise (KeyError key) <-> first_missing m = Some key) /\
  (forall p, (forall m, p <> PDict m) -> make_phantom p = Raise TypeError) /\
  (forall p e, make_phantom p = Raise e ->
     (exists key, e = KeyError key) \/ e ∈ constructor_errors).
Proof.
  split; [| split].
  - intros m key. split; [| apply make_phantom_missing].
    intros Hraise.
    destruct (make_phantom_raises _ _ Hraise) as [(m' & key' & Hm & Hfirst & Hkey) | Hin].
    + injection Hm as <-. congruence.
    + unfold constructor_errors in Hin.
      repeat (apply elem_of_cons in Hin as [Hin | Hin]; [discriminate |]).
      by apply elem_of_nil in Hin.
  - intros p Hp. destruct p; try reflexivity. by destruct (Hp d).
  - intros p e Hraise.
    destruct (make_phantom_raises _ _ Hraise) as [(m' & key' & _ & _ & ->) | Hin]; eauto.
Qed.

Lemma entry_errors_witness :
  first_missing (delete "xPos" (delete "radius" (entry "fat" (PInt 0) (PInt 0) (PInt 5) (PInt 10))))
  = Some "xPos" /\
  make_phantom (PDict (delete "xPos" (delete "radius"
                  (entry "fat" (PInt 0) (PInt 0) (PInt 5) (PInt 10)))))
  = Raise (KeyError "xPos").
Proof.
  assert (first_missing (delete "xPos" (delete "radius"
            (entry "fat" (PInt 0) (PInt 0) (PInt 5) (PInt 10)))) = Some "xPos") as Hfirst
    by (vm_compute; reflexivity).
  split; [exact Hfirst |].
  by apply (proj1 entry_errors).
Defined.

Lemma getitem_lookup (m : gmap string pyval) (key : string) (v : pyval) :
  py_getitem (PDict m) key = Ok v -> m !! key = Some v.
Proof. cbn. destruct (m !! key); [congruence | discriminate]. Qed.

(** X7: a phantom constructed from an entry holds exactly the values the
    entry has under the ten required keys, and nothing else of the entry
    matters: two objects that agree on those keys construct the same
    phantom or fail in the same way (extra keys are ignored). *)
Theorem phantom_holds_required_values :
  (forall m p,
     make_phantom (PDict m) = Ok p ->
     m !! "name" = Some (Phantom.name p) /\ m !! "material" = Some (Phantom.material p) /\
     m !! "xPos" = Some (Phantom.xPos p) /\ m !! "yPos" = Some (Phantom.yPos p) /\
     m !! "zPos" = Some (Phantom.zPos p) /\ m !! "xDir" = Some (Phantom.xDir p) /\
     m !! "yDir" = Some (Phantom.yDir p) /\ m !! "zDir" = Some (Phantom.zDir p) /\
     m !! "radius" = Some (Phantom.radius p) /\ m !! "zsize" = Some (Phantom.zsize p) /\
     Phantom.set_density (Phantom.material p) (Phantom.zsize p)
     = Ok (Phantom.density p, Phantom.opacity p)) /\
  (forall m m', required_agree m m' -> make_phantom (PDict m) = make_phantom (PDict m')).
Proof.
  split.
  - intros m p Hmake. unfold make_phantom in Hmake.
    apply bind_Ok_inv in Hmake as (name & Hname%getitem_lookup & Hmake).
    apply bind_Ok_inv in Hmake as (material & Hmaterial%getitem_lookup & Hmake).
    apply bind_Ok_inv in Hmake as (xPos & HxPos%getitem_lookup & Hmake).
    apply bind_Ok_inv in Hmake as (yPos & HyPos%getitem_lookup & Hmake).
    apply bind_Ok_inv in Hmake as (zPos & HzPos%getitem_lookup & Hmake).
    apply bind_Ok_inv in Hmake as (xDir & HxDir%getitem_lookup & Hmake).
    apply bind_Ok_inv in Hmake as (yDir & HyDir%getitem_lookup & Hmake).
    apply bind_Ok_inv in Hmake as (zDir & HzDir%getitem_lookup & Hmake).
    apply bind_Ok_inv in Hmake as (radius & Hradius%getitem_lookup & Hmake).
    apply bind_Ok_inv in Hmake as (zsize & Hzsize%getitem_lookup & Hmake).
    unfold Phantom.init in Hmake.
    apply bind_Ok_inv in Hmake as ([d o] & Hset & [= <-]). cbn. tauto.
  - intros m m' Hagree. unfold make_phantom, py_getitem.
    by rewrite !Hagree by (unfold required_keys; repeat constructor).
Qed.

Lemma phantom_holds_required_values_witness :
  required_agree (entry "fat" (PInt 0) (PInt 0) (PInt 5) (PInt 10))
                 (<["colour" := PStr "red"]> (entry "fat" (PInt 0) (PInt 0) (PInt 5) (PInt 10))) /\
  make_phantom (PDict (entry "fat" (PInt 0) (PInt 0) (PInt 5) (PInt 10)))
  = make_phantom (PDict (<["colour" := PStr "red"]>
                           (entry "fat" (PInt 0) (PInt 0) (PInt 5) (PInt 10)))).
Proof.
  assert (required_agree (entry "fat" (PInt 0) (PInt 0) (PInt 5) (PInt 10))
            (<["colour" := PStr "red"]> (entry "fat" (PInt 0) (PInt 0) (PInt 5) (PInt 10))))
    as Hagree.
  { intros key Hkey. rewrite lookup_insert_ne; [reflexivity |]. intros <-.
    unfold required_keys in Hkey.
    repeat (apply elem_of_cons in Hkey as [Hkey | Hkey]; [discriminate |]).
    by apply elem_of_nil in Hkey. }
  split; [exact Hagree |]. by apply (proj2 phantom_holds_required_values).
Defined.

(** X8: when the file holds a list of entries, loading either constructs
    every entry and appends the phantoms to the scene in the order of the
    list, printing nothing and returning None, or stops at the first entry
    that fails to construct: it prints one line with the 1-based position
    of that entry and calls [sys.exit()]; the entries after it are not
    looked at. *)
Theorem loading_stops_at_first_failure (w : world) (self : t) (entries : list pyval)
    (st : pstate) :
  holds_entries w (configuration_file self) entries ->
  (exists ps,
     constructs entries ps /\
     ReadPhantomsFromConfiguration w self st = (Return (extend self ps, None), st)) \/
  (exists pre ps p rest e,
     entries = pre ++ p :: rest /\ constructs pre ps /\ make_phantom p = Raise e /\
     ReadPhantomsFromConfiguration w self st
     = (SysExit None, printed st (failure_message (length pre + 1) e))).
Proof.
  intros Hfile. rewrite (Read_entries w self entries Hfile). unfold mbind, proc_bind.
  destruct (read_entries_outcome self 0 entries st)
    as [(ps & Hps & ->) | (pre & ps & p & rest & e & -> & Hpre & Hp & ->)].
  - left. by exists ps.
  - right. by exists pre, ps, p, rest, e.
Qed.

Lemma loading_stops_at_first_failure_witness :
  holds_entries
    (folder "." [("Configuration_1.json",
                  JSON (configuration
                          [PDict (entry "fat" (PInt 0) (PInt 0) (PInt 5) (PInt 10));
                           PDict (entry "wood" (PInt 0) (PInt 0) (PInt 5) (PInt 10));
                           PNone]))] true)
    "./Configuration_1.json"
    [PDict (entry "fat" (PInt 0) (PInt 0) (PInt 5) (PInt 10));
     PDict (entry "wood" (PInt 0) (PInt 0) (PInt 5) (PInt 10)); PNone] /\
  (ReadPhantomsFromConfiguration
     (folder "." [("Configuration_1.json",
                   JSON (configuration
                           [PDict (entry "fat" (PInt 0) (PInt 0) (PInt 5) (PInt 10));
                            PDict (entry "wood" (PInt 0) (PInt 0) (PInt 5) (PInt 10));
                            PNone]))] true)
     (scene_of (analyzer ".") "Configuration_1.json") (PState [] ∅)).1
  = SysExit None.
Proof.
  match goal with |- ?H /\ _ => assert H as Hfile end.
  { eexists. split; [reflexivity | vm_compute; reflexivity]. }
  split; [exact Hfile |].
  destruct (loading_stops_at_first_failure _ (scene_of (analyzer ".") "Configuration_1.json")
              _ (PState [] ∅) Hfile)
    as [(ps & Hps & _) | (pre & ps & p & rest & e & _ & _ & _ & ->)]; [| reflexivity].
  exfalso. apply Forall2_cons_inv_l in Hps as (p1 & ps1 & _ & Hps & _).
  apply Forall2_cons_inv_l in Hps as (p2 & ps2 & Hwood & _ & _).
  vm_compute in Hwood. discriminate.
Defined.

Lemma Read_keeps_scene (w : world) (self : t) (st : pstate) :
  files (ReadPhantomsFromConfiguration w self st).2 = files st /\
  (stdout (ReadPhantomsFromConfiguration w self st).2 = stdout st \/
   exists msg, stdout (ReadPhantomsFromConfiguration w self st).2 = stdout st ++ [msg]) /\
  forall self' returned,
    (ReadPhantomsFromConfiguration w self st).1 = Return (self', returned) ->
    configuration_file self' = configuration_file self /\
    output_dir self' = output_dir self /\
    label self' = label self /\
    params self' = params self /\
    phantoms self `prefix_of` phantoms self' /\
    (forall l, returned = Some l -> l = [] /\ self' = self).
Proof.
  split; [apply Read_keeps_files |].
  unfold ReadPhantomsFromConfiguration.
  destruct (file_at w (configuration_file self)) as [| e | | data].
  - split; [right; by eexists |]. intros self' returned [= <- <-].
    repeat (split; [reflexivity |]). by intros l [= <-].
  - split; [by left | discriminate].
  - split; [right; by eexists |]. intros self' returned [= <- <-].
    repeat (split; [reflexivity |]). by intros l [= <-].
  - unfold mbind, proc_bind, eval.
    destruct (py_contains "Phantoms" data) as [[] |]; cbn [negb].
    + destruct (py_getitem data "Phantoms") as [phantoms_data |];
        [| split; [by left | discriminate]].
      destruct (py_iter phantoms_data) as [entries |]; [| split; [by left | discriminate]].
      destruct (read_entries_outcome self 0 entries st)
        as [(ps & _ & ->) | (pre & ps & p & rest & e & _ & _ & _ & ->)].
      * split; [by left |]. intros self' returned [= <- <-]. cbn.
        repeat (split; [reflexivity |]). split; [by eexists | discriminate].
      * split; [right; by eexists | discriminate].
    + split; [right; by eexists |]. intros self' returned [= <- <-].
      repeat (split; [reflexivity |]). by intros l [= <-].
    + split; [by left | discriminate].
Qed.

(** X9: whatever the file holds, loading never writes a file and prints at
    most one line; when it returns, the scene keeps its configuration file,
    output directory, label and parameters, and the phantoms it had are
    still there, in front of the new ones; and when it returns [[]] (a
    failure of the file as a whole) the scene is unchanged. *)
Theorem loading_keeps (w : world) (self : t) (st : pstate) :
  files (ReadPhantomsFromConfiguration w self st).2 = files st /\
  (stdout (ReadPhantomsFromConfiguration w self st).2 = stdout st \/
   exists msg, stdout (ReadPhantomsFromConfiguration w self st).2 = stdout st ++ [msg]) /\
  forall self' returned,
    (ReadPhantomsFromConfiguration w self st).1 = Return (self', returned) ->
    configuration_file self' = configuration_file self /\
    output_dir self' = output_dir self /\
    label self' = label self /\
    params self' = params self /\
    phantoms self `prefix_of` phantoms self' /\
    (forall l, returned = Some l -> l = [] /\ self' = self).
Proof. apply Read_keeps_scene. Qed.

(** X10: a configuration that parses but has the wrong shape is neither
    skipped nor reported: when the top-level value is null, a boolean or a
    number, when it is a list that contains the string "Phantoms", or when
    the value under "Phantoms" is null, a boolean or a number, a TypeError
    goes uncaught.  Nothing is printed or written, the later files are not
    processed, and the exit status is 1. *)
Theorem malformed_configuration_crashes (w : world) (fa : FolderAnalyzer.t) (file : string)
    (later : list string) (st : pstate) (data : pyval) :
  str_contains ".json" file = true ->
  file_at w (path_of fa file) = JSON data ->
  scalar data \/
  (exists l, data = PList l /\ PStr "Phantoms" ∈ l) \/
  (exists top v, data = PDict top /\ top !! "Phantoms" = Some v /\ scalar v) ->
  FolderAnalyzer.analyze_all w fa (file :: later) st = (Uncaught TypeError, st) /\
  exit_status (FolderAnalyzer.analyze_all w fa (file :: later) st).1 = 1%Z.
Proof.
  intros Hjson Hfile Hshape.
  assert (ReadPhantomsFromConfiguration w (scene_of fa file) st = (Uncaught TypeError, st))
    as Hread.
  { unfold ReadPhantomsFromConfiguration. change (configuration_file (scene_of fa file))
      with (path_of fa file). rewrite Hfile.
    destruct Hshape as [Hdata | [(l & -> & Hin) | (top & v & -> & Htop & Hv)]].
    - by destruct data.
    - cbn [py_contains]. unfold mbind, proc_bind, eval.
      assert (existsb (fun x => eq_str x "Phantoms") l = true) as ->; [| reflexivity].
      apply existsb_exists. exists (PStr "Phantoms").
      split; [by apply list_elem_of_In | reflexivity].
    - cbn [py_contains py_getitem]. rewrite Htop.
      rewrite bool_decide_eq_true_2 by eauto. by destruct v. }
  assert (FolderAnalyzer.analyze_all w fa (file :: later) st = (Uncaught TypeError, st)) as Hrun.
  { cbn [FolderAnalyzer.analyze_all]. rewrite (analyze_unfold _ _ _ Hjson).
    unfold mbind, proc_bind. by rewrite Hread. }
  split; [exact Hrun |]. by rewrite Hrun.
Qed.

Lemma malformed_configuration_crashes_witness :
  str_contains ".json" "Configuration_1.json" = true /\
  FolderAnalyzer.analyze_all
    (folder "." [("Configuration_1.json", JSON (PInt 7))] true) (analyzer ".")
    ["Configuration_1.json"; "Configuration_2.json"] (PState [] ∅)
  = (Uncaught TypeError, PState [] ∅).
Proof.
  split; [reflexivity |].
  apply (malformed_configuration_crashes
           (folder "." [("Configuration_1.json", JSON (PInt 7))] true) (analyzer ".")
           "Configuration_1.json" ["Configuration_2.json"] (PState [] ∅) (PInt 7));
    [reflexivity | reflexivity | left; exact I].
Defined.

(** ** Further properties of the batch *)

Lemma analyze_writes (w : world) (fa : FolderAnalyzer.t) (file : string) (st : pstate) :
  files (FolderAnalyzer.analyze w fa file st).2 = files st \/
  (str_contains ".json" file = true /\
   exists img,
     files (FolderAnalyzer.analyze w fa file st).2
     = <[output_path (scene_of fa file) := img]> (files st)).
Proof.
  destruct (str_contains ".json" file) eqn:Hjson; [| left; by rewrite analyze_skips].
  rewrite (analyze_unfold _ _ _ Hjson). unfold mbind, proc_bind.
  pose proof (Read_keeps_scene w (scene_of fa file) st) as (Hfiles & _ & Hscene).
  destruct (ReadPhantomsFromConfiguration w (scene_of fa file) st)
    as [[[scene' returned] | arg | e] st1]; cbn [fst snd] in *; [| by left | by left].
  destruct (Hscene scene' returned eq_refl) as (_ & Hout & Hlabel & _).
  unfold GenerateImage, mbind, proc_bind, eval, save.
  destruct (render w scene') as [img |]; [| by left].
  assert (output_path scene' = output_path (scene_of fa file)) as ->
    by (unfold output_path; by rewrite Hout, Hlabel).
  destruct (can_save w (output_path (scene_of fa file))); [| by left].
  right. split; [reflexivity |]. exists img. cbn. by rewrite Hfiles.
Qed.

(** X12: the batch never removes a file and writes nowhere but to
    [output_dir + '/Phantoms_' + label + '.png'], where the label is the
    one extracted from the path of a listed file whose name contains
    ".json": the path written depends on the file only through its
    label. *)
Theorem batch_writes_only_labelled_images (w : world) (fa : FolderAnalyzer.t)
    (conf_files : list string) (st : pstate) (path : string) :
  (is_Some (files st !! path) ->
   is_Some (files (FolderAnalyzer.analyze_all w fa conf_files st).2 !! path)) /\
  (is_Some (files (FolderAnalyzer.analyze_all w fa conf_files st).2 !! path) ->
   is_Some (files st !! path) \/
   exists file,
     file ∈ conf_files /\ str_contains ".json" file = true /\
     path = FolderAnalyzer.output_dir fa +:+ "/Phantoms_"
            +:+ str_label (extract_index (path_of fa file)) +:+ ".png").
Proof.
  revert st. induction conf_files as [| file conf_files IH]; intros st; [by split; eauto |].
  cbn [FolderAnalyzer.analyze_all]. unfold mbind, proc_bind.
  pose proof (analyze_writes w fa file st) as Hstep.
  destruct (FolderAnalyzer.analyze w fa file st) as [[[] | arg | e] st1]; cbn [fst snd] in *.
  - destruct (IH st1) as [Hkeep Hnew]. split.
    + intros Hold. apply Hkeep.
      destruct Hstep as [-> | (_ & img & ->)]; [exact Hold |].
      rewrite lookup_insert. case_decide; [by eexists | exact Hold].
    + intros Hfinal. destruct (Hnew Hfinal) as [Hmid | (file' & Hin & Hjson & ->)].
      * destruct Hstep as [Hsame | (Hjson & img & Hins)].
        -- left. by rewrite <- Hsame.
        -- rewrite Hins, lookup_insert in Hmid. case_decide as Hpath; [| by left].
           right. exists file. split; [by left |]. split; [exact Hjson |]. by rewrite <- Hpath.
      * right. exists file'. split; [by right |]. by split.
  - destruct Hstep as [-> | (Hjson & img & ->)].
    + split; [done | by left].
    + split.
      * intros Hold. rewrite lookup_insert. case_decide; [by eexists | exact Hold].
      * rewrite lookup_insert. case_decide as Hpath; [| by left].
        intros _. right. exists file. split; [by left |]. split; [exact Hjson |].
        by rewrite <- Hpath.
  - destruct Hstep as [-> | (Hjson & img & ->)].
    + split; [done | by left].
    + split.
      * intros Hold. rewrite lookup_insert. case_decide; [by eexists | exact Hold].
      * rewrite lookup_insert. case_decide as Hpath; [| by left].
        intros _. right. exists file. split; [by left |]. split; [exact Hjson |].
        by rewrite <- Hpath.
Qed.

Lemma batch_writes_only_labelled_images_witness :
  is_Some (files (FolderAnalyzer.analyze_all
                    (folder "run2" [("Configuration_7.json", NotJSON)] true)
                    (analyzer "run2") ["Configuration_7.json"] (PState [] ∅)).2
           !! "./output/Phantoms_2.png") /\
  (is_Some ((∅ : gmap string image) !! "./output/Phantoms_2.png") \/
   exists file,
     file ∈ ["Configuration_7.json"] /\ str_contains ".json" file = true /\
     "./output/Phantoms_2.png"
     = FolderAnalyzer.output_dir (analyzer "run2") +:+ "/Phantoms_"
       +:+ str_label (extract_index (path_of (analyzer "run2") file)) +:+ ".png").
Proof.
  match goal with |- ?H /\ _ => assert H as Hwritten end.
  { vm_compute. by eexists. }
  split; [exact Hwritten |].
  exact (proj2 (batch_writes_only_labelled_images
                  (folder "run2" [("Configuration_7.json", NotJSON)] true)
                  (analyzer "run2") ["Configuration_7.json"] (PState [] ∅)
                  "./output/Phantoms_2.png") Hwritten).
Defined.

(** ** Further properties of the image *)

Lemma paint_square (n : nat) (img : image) (mask : Z -> Z -> bool) (ink : Z) :
  square n img -> square n (paint img mask ink).
Proof.
  intros [Hrows Hlines]. unfold square, paint. rewrite length_imap. split; [exact Hrows |].
  apply Forall_lookup_2. intros row line. rewrite list_lookup_imap.
  destruct (img !! row) as [line0 |] eqn:Hrow; [| discriminate]. intros [= <-].
  rewrite length_imap. by apply (Forall_lookup_1 _ _ _ _ Hlines Hrow).
Qed.

Lemma Image_new_square (n : Z) (img : image) :
  Image_new n = Ok img ->
  square (Z.to_nat n) img /\
  forall col row, (col < Z.to_nat n)%nat -> (row < Z.to_nat n)%nat ->
                  pixel img col row = Some 255%Z.
Proof.
  unfold Image_new. destruct (n <? 0)%Z; [discriminate |]. intros [= <-]. split.
  - split; [apply length_replicate |]. apply Forall_replicate, length_replicate.
  - intros col row Hcol Hrow. unfold pixel.
    rewrite lookup_replicate_2 by exact Hrow. cbn. by rewrite lookup_replicate_2.
Qed.

Lemma draw_all_square (w : world) (ps : Params) (c : float) (n : nat)
    (img img' : image) (l : list Phantom.t) :
  int_truediv (px ps) 2 = Ok c ->
  draw_all w ps c c img l = Ok img' -> square n img -> square n img'.
Proof.
  intros Hc. revert img. induction l as [| p l IH]; intros img; cbn [draw_all].
  - by intros [= ->].
  - intros Hdraw Hsquare. apply bind_Ok_inv in Hdraw as (img1 & Hp & Hdraw).
    apply (IH _ Hdraw).
    apply (draw_phantom_inv w ps c Hc) in Hp as (? & ? & ink & mask & _ & _ & _ & _ & ->).
    by apply paint_square.
Qed.

Lemma pixel_in_square (n : nat) (img : image) (col row : nat) :
  square n img -> is_Some (pixel img col row) <-> (col < n)%nat /\ (row < n)%nat.
Proof.
  intros [Hrows Hlines]. unfold pixel. split.
  - intros [v Hv]. destruct (img !! row) as [line |] eqn:Hrow; [| discriminate].
    cbn in Hv. apply lookup_lt_Some in Hv.
    rewrite (Forall_lookup_1 _ _ _ _ Hlines Hrow) in Hv.
    apply lookup_lt_Some in Hrow. lia.
  - intros [Hcol Hrow]. destruct (lookup_lt_is_Some_2 img row) as [line Hline]; [lia |].
    rewrite Hline. cbn. apply lookup_lt_is_Some_2.
    by rewrite (Forall_lookup_1 _ _ _ _ Hlines Hline).
Qed.

(** X13: whatever the phantoms, an image that [GenerateImage] renders
    has [px] rows of [px] pixels: drawing never changes its size, and the
    pixels it has are those with column and row below [px]. *)
Theorem rendered_image_is_square (w : world) (self : t) (img : image) :
  render w self = Ok img ->
  square (Z.to_nat (px (params self))) img /\
  forall col row,
    is_Some (pixel img col row) <->
    (col < Z.to_nat (px (params self)))%nat /\ (row < Z.to_nat (px (params self)))%nat.
Proof.
  intros Hrender. unfold render in Hrender.
  apply bind_Ok_inv in Hrender as (c & Hc & Hrender). rewrite Hc, bind_Ok in Hrender.
  apply bind_Ok_inv in Hrender as (img0 & Hnew & Hrender).
  assert (square (Z.to_nat (px (params self))) img) as Hsquare.
  { apply (draw_all_square _ _ _ _ _ _ _ Hc Hrender). by apply Image_new_square. }
  split; [exact Hsquare |]. intros col row. by apply pixel_in_square.
Qed.

Lemma rendered_image_is_square_witness :
  exists img, render empty_folder overlapping = Ok img /\ square 8 img.
Proof.
  assert (exists img, render empty_folder overlapping = Ok img) as [img Hrender].
  { eexists. vm_compute. reflexivity. }
  exists img. split; [exact Hrender |].
  exact (proj1 (rendered_image_is_square empty_folder overlapping img Hrender)).
Defined.

(** X14: the background is white: a pixel of the rendered image that no
    phantom of the scene covers has the value 255; in particular a scene
    without phantoms renders an all-white image. *)
Theorem background_is_white (w : world) (self : t) (img : image) (col row : nat) :
  render w self = Ok img ->
  (col < Z.to_nat (px (params self)))%nat ->
  (row < Z.to_nat (px (params self)))%nat ->
  (forall p, p ∈ phantoms self -> ~ covers w (params self) p col row) ->
  pixel img col row = Some 255%Z.
Proof.
  intros Hrender Hcol Hrow Hfree. unfold render in Hrender.
  apply bind_Ok_inv in Hrender as (c & Hc & Hrender). rewrite Hc, bind_Ok in Hrender.
  apply bind_Ok_inv in Hrender as (img0 & Hnew & Hrender).
  rewrite (draw_all_elsewhere w (params self) c Hc _ _ _ _ _ Hrender Hfree).
  by apply (Image_new_square _ _ Hnew).
Qed.

Lemma disk_in_disk (n : Z) (box : bbox) (mask : Z -> Z -> bool) (col row : Z) :
  disk n box = Ok mask -> mask col row = in_disk box col row.
Proof.
  unfold disk, in_disk. destruct box as [[[x0 y0] x1] y1].
  destruct (_ || _); [discriminate |]. by intros [= <-].
Qed.

Lemma background_is_white_witness :
  exists img,
    render empty_folder overlapping = Ok img /\ pixel img 0 0 = Some 255%Z.
Proof.
  assert (exists img, render empty_folder overlapping = Ok img) as [img Hrender].
  { eexists. vm_compute. reflexivity. }
  exists img. split; [exact Hrender |].
  apply (background_is_white empty_folder overlapping img 0 0 Hrender);
    [vm_compute; lia | vm_compute; lia |].
  intros p Hp (circle & mask & Hcircle & Hmask & Hcov).
  rewrite (disk_in_disk _ _ _ _ _ Hmask) in Hcov. clear Hmask.
  unfold overlapping in Hp. cbn [phantoms] in Hp.
  repeat (apply elem_of_cons in Hp as [-> | Hp]);
    [| | by apply elem_of_nil in Hp];
    vm_compute in Hcircle; injection Hcircle as <-;
    vm_compute in Hcov; discriminate.
Defined.

Lemma draw_all_fails (w : world) (ps : Params) (c : float) (img : image)
    (l : list Phantom.t) (p : Phantom.t) :
  p ∈ l -> (forall img0 img1, draw_phantom w ps c c img0 p <> Ok img1) ->
  exists e, draw_all w ps c c img l = Raise e.
Proof.
  intros Hin Hfail. revert img. induction l as [| q l IH]; intros img.
  - by apply elem_of_nil in Hin.
  - cbn [draw_all]. destruct (draw_phantom w ps c c img q) as [img1 | e] eqn:Hq;
      [| by exists e].
    rewrite bind_Ok. apply elem_of_cons in Hin as [-> | Hin]; [| by apply IH].
    by destruct (Hfail img img1).
Qed.

(** X15: a length that is NaN or infinite is not rejected when the
    configuration is loaded: for every recognized material the phantom is
    constructed, with an opacity that is NaN.  Rendering a scene that holds
    a phantom with such an opacity then never produces an image: an
    exception goes uncaught in [GenerateImage] and no file is written. *)
Theorem non_finite_length_breaks_rendering (material : string) (zsize : pyval) :
  material ∈ recognized ->
  zsize ∈ non_finite_lengths ->
  (exists d, Phantom.set_density (PStr material) zsize = Ok (d, nan)) /\
  forall (w : world) (self : t) (p : Phantom.t) (st : pstate),
    p ∈ phantoms self -> Phantom.opacity p = nan ->
    fill_of p = Raise ValueError /\
    exists e, GenerateImage w self st = (Uncaught e, st).
Proof.
  intros Hin Hz. split.
  - unfold non_finite_lengths in Hz.
    repeat (apply elem_of_cons in Hz as [-> | Hz]); [| | | by apply elem_of_nil in Hz];
      revert material Hin; apply recognized_cases; eexists; vm_compute; reflexivity.
  - intros w self p st Hp Hnan.
    assert (fill_of p = Raise ValueError) as Hfill
      by (rewrite fill_of_float, Hnan; reflexivity).
    split; [exact Hfill |].
    assert (exists e, render w self = Raise e) as [e Hrender].
    { unfold render.
      destruct (int_truediv (px (params self)) 2) as [c |]; [| by eexists].
      rewrite !bind_Ok. destruct (Image_new (px (params self))) as [img |]; [| by eexists].
      rewrite bind_Ok. apply (draw_all_fails _ _ _ _ _ p Hp).
      intros img0 img1 Hdraw. unfold draw_phantom in Hdraw.
      apply bind_Ok_inv in Hdraw as (circle & _ & Hdraw).
      rewrite Hfill in Hdraw. discriminate. }
    exists e. unfold GenerateImage. by rewrite Hrender.
Qed.

Lemma non_finite_length_breaks_rendering_witness :
  "bone" ∈ recognized /\ PFloat infinity ∈ non_finite_lengths /\
  exists d, Phantom.set_density (PStr "bone") (PFloat infinity) = Ok (d, nan).
Proof.
  assert ("bone" ∈ recognized) as Hin by (unfold recognized; repeat constructor).
  assert (PFloat infinity ∈ non_finite_lengths) as Hz
    by (unfold non_finite_lengths; repeat constructor).
  split; [exact Hin |]. split; [exact Hz |].
  exact (proj1 (non_finite_length_breaks_rendering "bone" (PFloat infinity) Hin Hz)).
Defined.
